(** * lessweb: a shallow embedding of the web framework core

    Sources: [lessweb/webapi.py] (HTTP errors, binding errors),
    [lessweb/plugin/database.py] (request processor, [make_session]) and
    [test/test_usage.py].  The application, context, router and parameter
    binder modules are not part of the sources at hand; they are modelled
    from the specification and marked as such. *)

From Stdlib Require Import Ascii String List ZArith Bool Lia DecimalString.
Import ListNotations.
Open Scope string_scope.
Open Scope list_scope.
Set Warnings "-register-all".

(** ** Python dictionaries with string keys

    A Python [dict] keeps insertion order; updating an existing key keeps
    its position, a new key goes last. *)

Definition Dict (V : Type) := list (string * V).

Fixpoint dict_get {V} (k : string) (d : Dict V) : option V :=
  match d with
  | [] => None
  | (k', v) :: d' => if String.eqb k k' then Some v else dict_get k d'
  end.

Fixpoint dict_set {V} (k : string) (v : V) (d : Dict V) : Dict V :=
  match d with
  | [] => [(k, v)]
  | (k', v') :: d' =>
      if String.eqb k k' then (k', v) :: d' else (k', v') :: dict_set k v d'
  end.

Definition dict_has {V} (k : string) (d : Dict V) : bool :=
  match dict_get k d with Some _ => true | None => false end.

(** [', '.join(xs)] *)
Fixpoint join_str (sep : string) (xs : list string) : string :=
  match xs with
  | [] => ""
  | [x] => x
  | x :: xs' => x ++ sep ++ join_str sep xs'
  end.

(** ** HTTP errors ([webapi.py]) *)

Definition Headers := Dict string.

Record HttpError := mkHttpError {
  status_code : Z;
  text : string;
  headers : Headers
}.

(** [HttpError.__init__]: [self.headers = headers or {}]; [None] and an
    empty dict are both falsy. *)
Definition HttpError_init (status_code : Z) (text : string)
    (headers : option Headers) : HttpError :=
  mkHttpError status_code text
    (match headers with Some h => h | None => [] end).

(** [_TextHttpError.__init__] *)
Definition TextHttpError_init (status_code : Z) (text : string)
    (headers : option Headers) : HttpError :=
  let h := match headers with Some h => h | None => [] end in
  let h := dict_set "Content-Type" "text/html" h in
  HttpError_init status_code text (Some h).

(** [NotFound.__init__] *)
Definition NotFound (text : string) (headers : option Headers) : HttpError :=
  let h := match headers with Some h => h | None => [] end in
  let h := match h with [] => [("Content-Type", "text/html")] | _ => h end in
  HttpError_init 404 text (Some h).

(** Python truthiness of the [methods] argument: [None] and [[]] are
    falsy. *)
Definition truthy_list (m : option (list string)) : bool :=
  match m with Some (_ :: _) => true | _ => false end.

(** The default of [methods] is the expression [None and ['GET', ...]],
    which evaluates to [None] ([None] is falsy, so [and] returns it). *)
Definition NoMethod_default_methods : option (list string) := None.

(** [NoMethod.__init__(text='', methods=..., headers=None)] *)
Definition NoMethod (text : string) (methods : option (list string))
    (headers : option Headers) : HttpError :=
  let h := match headers with Some h => h | None => [] end in
  let h := if truthy_list methods then
             match methods with
             | Some ms => dict_set "Allow" (join_str ", " ms) h
             | None => h
             end
           else h in
  TextHttpError_init 405 text (Some h).

(** [NoMethod()] *)
Definition NoMethod_default : HttpError :=
  NoMethod "" NoMethod_default_methods None.

(** ** Binding errors ([webapi.py]) *)

Inductive Exn :=
| NeedParamError (query : string) (doc : string)
| BadParamError (query : string) (error : string)
| HttpExn (e : HttpError)
| AttributeError (attr : string)
| KeyError (key : string)
| TypeError (msg : string)
| UserError (tag : string).

(** [NeedParamError.__str__] and [BadParamError.__str__] *)
Definition exn_str (e : Exn) : string :=
  match e with
  | NeedParamError q d => "query:" ++ q ++ " doc:" ++ d
  | BadParamError q err => "query:" ++ q ++ " error:" ++ err
  | _ => ""
  end.

(** ** Python values *)

Inductive Value :=
| VNone
| VStr (s : string)
| VInt (z : Z)
| VBool (b : bool)
| VDict (d : list (string * Value))
(** the request's Context object, passed by reference *)
| VCtx.

(** ** The per-request Context

    Modelled from the spec: the [lessweb.context.Context] class is not in
    the sources.  A Context carries the matched path, the method, the
    path parameters extracted by the router, the query parameters, the
    parsed body fields, and an extension bag for plugin attributes, of
    which the database plugin uses [db].  Reading an attribute that was
    never assigned raises [AttributeError], as for any Python object. *)

Definition Session := nat.

Record Context := mkContext {
  ctx_path : string;
  ctx_method : string;
  ctx_path_params : Dict string;
  ctx_query : Dict string;
  ctx_body : Dict string;
  ctx_db : option Session
}.

Definition set_ctx_db (c : Context) (s : option Session) : Context :=
  mkContext (ctx_path c) (ctx_method c) (ctx_path_params c) (ctx_query c)
    (ctx_body c) s.

(** Observable events: interceptor entry and exit, handler execution and
    the database session operations. *)
Inductive Event :=
| EvEnter (name : string)
| EvExit (name : string)
| EvHandler (name : string)
| EvAcquire (s : Session)
| EvBegin (s : Session)
| EvCommit (s : Session)
| EvTxRollback (s : Session)
| EvRollback (s : Session)
| EvClose (s : Session).

(** The state of one request: its Context, the event log, and the
    counter the session factory draws fresh sessions from. *)
Record St := mkSt {
  ctx : Context;
  log : list Event;
  next_session : Session
}.

(** ** A state and exception monad for Python statements *)

Inductive Res (A : Type) :=
| Ret (a : A)
| Raise (e : Exn).
Arguments Ret {A} a.
Arguments Raise {A} e.

Definition M (A : Type) := St -> Res A * St.

Definition ret {A} (a : A) : M A := fun st => (Ret a, st).
Definition raise {A} (e : Exn) : M A := fun st => (Raise e, st).

Definition bind {A B} (m : M A) (f : A -> M B) : M B :=
  fun st =>
    match m st with
    | (Ret a, st') => f a st'
    | (Raise e, st') => (Raise e, st')
    end.

Notation "x <- m ;; k" := (bind m (fun x => k))
  (at level 61, m at next level, right associativity).
Notation "m ;;; k" := (bind m (fun _ => k))
  (at level 61, right associativity).

(** Branch on whether a statement completed or raised. *)
Definition m_case {A B} (m : M A) (ok : A -> M B) (ko : Exn -> M B) : M B :=
  fun st =>
    match m st with
    | (Ret a, st') => ok a st'
    | (Raise e, st') => ko e st'
    end.

(** [try: body except: handler] (a bare [except] catches everything) *)
Definition try_except {A} (body : M A) (handler : Exn -> M A) : M A :=
  m_case body ret handler.

(** [try: body finally: fin]: [fin] runs on every exit; an exception it
    raises replaces the outcome of [body]. *)
Definition try_finally {A} (body : M A) (fin : M unit) : M A :=
  fun st =>
    let '(r, st1) := body st in
    match fin st1 with
    | (Ret _, st2) => (r, st2)
    | (Raise e, st2) => (Raise e, st2)
    end.

Definition emit (ev : Event) : M unit :=
  fun st => (Ret tt, mkSt (ctx st) (log st ++ [ev]) (next_session st)).

Definition get_ctx : M Context := fun st => (Ret (ctx st), st).

Definition put_ctx (c : Context) : M unit :=
  fun st => (Ret tt, mkSt c (log st) (next_session st)).

(** [ctx.db] *)
Definition get_db : M Session :=
  c <- get_ctx ;;
  match ctx_db c with
  | Some s => ret s
  | None => raise (AttributeError "db")
  end.

(** [ctx.db = s] *)
Definition set_db (s : Session) : M unit :=
  c <- get_ctx ;; put_ctx (set_ctx_db c (Some s)).

(** ** The database plugin ([plugin/database.py]) *)

(** [global_data]: the [autocommit] flag set by [init], and the behaviour
    of the session factory [db_session_maker] and of the commit performed
    by the [begin()] block of a session: [None] when they succeed, the
    exception they raise otherwise. *)
Record GlobalData := mkGlobalData {
  autocommit : bool;
  maker_error : option Exn;
  commit_error : option Exn
}.

(** [global_data.db_session_maker()]: a fresh session, or the factory's
    exception. *)
Definition db_session_maker (gd : GlobalData) : M Session :=
  match maker_error gd with
  | Some e => raise e
  | None => fun st =>
      let s := next_session st in
      (Ret s, mkSt (ctx st) (log st ++ [EvAcquire s]) (S s))
  end.

(** [session.rollback()] and [session.close()] on a variable that holds a
    session or [None] (calling a method on [None] raises
    [AttributeError]). *)
Definition sess_rollback (o : option Session) : M unit :=
  match o with
  | Some s => emit (EvRollback s)
  | None => raise (AttributeError "rollback")
  end.

Definition sess_close (o : option Session) : M unit :=
  match o with
  | Some s => emit (EvClose s)
  | None => raise (AttributeError "close")
  end.

(** [with session.begin(): body]: the transaction commits when the body
    completes (and rolls back if the commit fails), and rolls back and
    re-raises when the body raises. *)
Definition with_begin {A} (gd : GlobalData) (s : Session) (body : M A) : M A :=
  emit (EvBegin s) ;;;
  m_case body
    (fun a =>
       emit (EvCommit s) ;;;
       match commit_error gd with
       | None => ret a
       | Some e => emit (EvTxRollback s) ;;; raise e
       end)
    (fun e => emit (EvTxRollback s) ;;; raise e).

(** [processor(ctx)]; the continuation [ctx()] is [next]. *)
Definition processor (gd : GlobalData) (next : M Value) : M Value :=
  try_finally
    (try_except
       (s <- db_session_maker gd ;;
        set_db s ;;;
        if autocommit gd then
          (db <- get_db ;; with_begin gd db next)
        else next)
       (fun e => db <- get_db ;; sess_rollback (Some db) ;;; raise e))
    (db <- get_db ;; sess_close (Some db)).

(** [with make_session() as session: body(session)].  The generator's
    local [session] is [None] until the factory returns; an exception of
    the [with] body is thrown into the generator at its [yield]. *)
Definition make_session {A} (gd : GlobalData) (body : Session -> M A) : M A :=
  m_case (db_session_maker gd)
    (fun s =>
       try_finally
         (try_except (body s) (fun e => sess_rollback (Some s) ;;; raise e))
         (sess_close (Some s)))
    (fun e =>
       try_finally
         (sess_rollback None ;;; raise e)
         (sess_close None)).

(** ** Python operators used by handlers and interceptors *)

(** [a + b] *)
Definition py_add (a b : Value) : M Value :=
  match a, b with
  | VStr x, VStr y => ret (VStr (x ++ y)%string)
  | VInt x, VInt y => ret (VInt (x + y))
  | _, _ => raise (TypeError "unsupported operand type(s) for +")
  end.

(** [d[k]] *)
Definition py_getitem (d : Value) (k : string) : M Value :=
  match d with
  | VDict kvs =>
      match dict_get k kvs with
      | Some v => ret v
      | None => raise (KeyError k)
      end
  | _ => raise (TypeError "object is not subscriptable")
  end.

(** [ctx.path] on the live Context *)
Definition py_ctx_path (v : Value) : M Value :=
  match v with
  | VCtx => c <- get_ctx ;; ret (VStr (ctx_path c))
  | _ => raise (AttributeError "path")
  end.

(** ** Handlers and their signatures

    Modelled from the spec: the parameter binder and the interceptor
    chain of [lessweb.application] are not in the sources.  A handler
    signature lists, per parameter, its name, its annotation and its
    default; an interceptor receives the continuation "invoke the rest of
    the chain" (in the sources, calling [ctx()]) and the live Context
    through the request state. *)

Inductive Ann := AnnNone | AnnContext | AnnStr | AnnInt | AnnBool.

Record Param := mkParam {
  p_name : string;
  p_ann : Ann;
  p_default : option Value
}.

Definition Interceptor := M Value -> M Value.

Record Handler := mkHandler {
  h_name : string;
  h_doc : string;
  h_params : list Param;
  h_body : list Value -> M Value;
  h_interceptors : list Interceptor
}.

(** [interceptor(i)(handler)]: attach per-handler interceptors, which run
    after the global ones. *)
Definition attach_interceptors (h : Handler) (is : list Interceptor) : Handler :=
  mkHandler (h_name h) (h_doc h) (h_params h) (h_body h) (h_interceptors h ++ is).

(** ** The parameter binder (modelled from the spec, section 4.1) *)

(** Lookup by name: path parameters, then query parameters, then body
    fields; the first source that has the name wins. *)
Definition resolve (c : Context) (name : string) : option string :=
  match dict_get name (ctx_path_params c) with
  | Some v => Some v
  | None =>
      match dict_get name (ctx_query c) with
      | Some v => Some v
      | None => dict_get name (ctx_body c)
      end
  end.

Definition lower_ascii (a : Ascii.ascii) : Ascii.ascii :=
  let n := Ascii.nat_of_ascii a in
  if (65 <=? n)%nat && (n <=? 90)%nat then Ascii.ascii_of_nat (n + 32)%nat else a.

Fixpoint lower (s : string) : string :=
  match s with
  | EmptyString => EmptyString
  | String a s' => String (lower_ascii a) (lower s')
  end.

Definition digit_value (a : Ascii.ascii) : option Z :=
  let n := Ascii.nat_of_ascii a in
  if (48 <=? n)%nat && (n <=? 57)%nat then Some (Z.of_nat (n - 48)%nat) else None.

Fixpoint parse_digits (acc : Z) (s : string) : option Z :=
  match s with
  | EmptyString => Some acc
  | String a s' =>
      match digit_value a with
      | Some d => parse_digits (acc * 10 + d) s'
      | None => None
      end
  end.

(** A decimal integer with an optional leading minus sign. *)
Definition parse_int (s : string) : option Z :=
  match s with
  | String "-"%char (String _ _ as s') => option_map Z.opp (parse_digits 0 s')
  | String _ _ => parse_digits 0 s
  | EmptyString => None
  end.

(** Coercion to the declared type: [inl] carries the coercion error. *)
Definition coerce (ann : Ann) (raw : string) : string + Value :=
  match ann with
  | AnnNone | AnnStr | AnnContext => inr (VStr raw)
  | AnnInt =>
      match parse_int raw with
      | Some z => inr (VInt z)
      | None => inl ("invalid literal for int(): " ++ raw)%string
      end
  | AnnBool =>
      let l := lower raw in
      if String.eqb l "true" || String.eqb l "1" then inr (VBool true)
      else if String.eqb l "false" || String.eqb l "0" then inr (VBool false)
      else inl ("invalid literal for bool: " ++ raw)%string
  end.

Definition bind_param (doc : string) (c : Context) (p : Param) : Res Value :=
  match p_ann p with
  | AnnContext => Ret VCtx
  | _ =>
      match resolve c (p_name p) with
      | Some raw =>
          match coerce (p_ann p) raw with
          | inl err => Raise (BadParamError (p_name p) err)
          | inr v => Ret v
          end
      | None =>
          match p_default p with
          | Some v => Ret v
          | None => Raise (NeedParamError (p_name p) doc)
          end
      end
  end.

(** Parameters are bound left to right; the first failure is raised. *)
Fixpoint bind_args (doc : string) (c : Context) (ps : list Param) : Res (list Value) :=
  match ps with
  | [] => Ret []
  | p :: ps' =>
      match bind_param doc c p with
      | Raise e => Raise e
      | Ret v =>
          match bind_args doc c ps' with
          | Raise e => Raise e
          | Ret vs => Ret (v :: vs)
          end
      end
  end.

(** The terminal step: bind the arguments from the live Context, at the
    moment the continuation reaches the handler, and call it. *)
Definition terminal (h : Handler) : M Value :=
  c <- get_ctx ;;
  match bind_args (h_doc h) c (h_params h) with
  | Ret args => h_body h args
  | Raise e => raise e
  end.

(** ** The interceptor chain builder (modelled from the spec, section 4.2)

    A right fold: the last interceptor wraps the handler, the first one
    is outermost. *)
Definition build_chain (is : list Interceptor) (h : Handler) : M Value :=
  fold_right (fun (i : Interceptor) (k : M Value) => i k) (terminal h) is.

(** ** The router (modelled from the spec, section 4.3)

    A pattern such as [/item/{id}] is split at ['/'] into segments; a
    segment [{name}] matches any non-empty path segment and captures it,
    any other segment must be equal. *)

Fixpoint split_slash (s : string) : list string :=
  match s with
  | EmptyString => [EmptyString]
  | String a s' =>
      match split_slash s' with
      | [] => [String a EmptyString]
      | seg :: segs =>
          if Ascii.eqb a "/"%char then EmptyString :: seg :: segs
          else String a seg :: segs
      end
  end.

Fixpoint last_char (s : string) : option Ascii.ascii :=
  match s with
  | EmptyString => None
  | String a EmptyString => Some a
  | String _ s' => last_char s'
  end.

(** [Some name] for a named segment [{name}] *)
Definition named_segment (seg : string) : option string :=
  match seg with
  | String "{"%char rest =>
      match last_char rest with
      | Some "}"%char => Some (substring 0 (String.length rest - 1) rest)
      | _ => None
      end
  | _ => None
  end.

Fixpoint match_segments (pat segs : list string) : option (Dict string) :=
  match pat, segs with
  | [], [] => Some []
  | p :: pat', s :: segs' =>
      match match_segments pat' segs' with
      | None => None
      | Some ps =>
          match named_segment p with
          | Some name =>
              if String.eqb s "" then None else Some ((name, s) :: ps)
          | None => if String.eqb p s then Some ps else None
          end
      end
  | _, _ => None
  end.

Definition match_pattern (pattern path : string) : option (Dict string) :=
  match_segments (split_slash pattern) (split_slash path).

Definition count_named (pattern : string) : nat :=
  length (filter (fun seg => match named_segment seg with
                             | Some _ => true | None => false end)
                 (split_slash pattern)).

Record Route := mkRoute {
  r_method : string;
  r_pattern : string;
  r_handler : Handler
}.

Fixpoint dedup (xs : list string) : list string :=
  match xs with
  | [] => []
  | x :: xs' => x :: filter (fun y => negb (String.eqb x y)) (dedup xs')
  end.

(** The route for the request: among the routes whose pattern matches the
    path and whose method is the request's, the one with the fewest named
    segments (the first registered among equals). *)
Fixpoint best_route (rs : list (Route * Dict string)) : option (Route * Dict string) :=
  match rs with
  | [] => None
  | r :: rs' =>
      match best_route rs' with
      | None => Some r
      | Some r' =>
          if (count_named (r_pattern (fst r')) <? count_named (r_pattern (fst r)))%nat
          then Some r' else Some r
      end
  end.

Definition matching_routes (routes : list Route) (path : string)
    : list (Route * Dict string) :=
  flat_map (fun r => match match_pattern (r_pattern r) path with
                     | Some ps => [(r, ps)]
                     | None => []
                     end) routes.

(** Routing: [NotFound] when no pattern matches the path, [NoMethod]
    listing the methods registered for the path when none has the
    request's method. *)
Definition route (routes : list Route) (method path : string)
    : Exn + (Handler * Dict string) :=
  let ms := matching_routes routes path in
  match ms with
  | [] => inl (HttpExn (NotFound "not found" None))
  | _ =>
      match best_route (filter (fun rp => String.eqb (r_method (fst rp)) method) ms) with
      | Some (r, ps) => inr (r_handler r, ps)
      | None =>
          inl (HttpExn (NoMethod "" (Some (dedup (map (fun rp => r_method (fst rp)) ms))) None))
      end
  end.

(** ** The application (modelled from the spec, section 4.4) *)

Record Application := mkApplication {
  routes : list Route;
  interceptors : list Interceptor;
  app_processor : option (M Value -> M Value)
}.

Definition empty_app : Application := mkApplication [] [] None.

(** [add_mapping(pattern, method, handler)]: a re-registration of the same
    method and pattern replaces the earlier one. *)
Definition add_mapping (app : Application) (pattern method : string)
    (h : Handler) : Application :=
  mkApplication
    (filter (fun r => negb (String.eqb (r_method r) method && String.eqb (r_pattern r) pattern))
            (routes app) ++ [mkRoute method pattern h])
    (interceptors app) (app_processor app).

(** [add_interceptor(fn)] appends to the global list. *)
Definition add_interceptor (app : Application) (i : Interceptor) : Application :=
  mkApplication (routes app) (interceptors app ++ [i]) (app_processor app).

Definition set_processor (app : Application) (p : M Value -> M Value) : Application :=
  mkApplication (routes app) (interceptors app) (Some p).

(** One request: route, build the fresh Context, run the chain of the
    global interceptors followed by the handler's own, wrapped by the
    processor when one is registered. *)
Definition dispatch (app : Application) (method path : string)
    (query body : Dict string) : M Value :=
  match route (routes app) method path with
  | inl e => raise e
  | inr (h, ps) =>
      put_ctx (mkContext path method ps query body None) ;;;
      let chain := build_chain (interceptors app ++ h_interceptors h) h in
      match app_processor app with
      | Some p => p chain
      | None => chain
      end
  end.

Definition empty_ctx : Context := mkContext "" "" [] [] [] None.
Definition init_st : St := mkSt empty_ctx [] 0.

Definition serve (app : Application) (method path : string)
    (query body : Dict string) : Res Value * St :=
  dispatch app method path query body init_st.

Record Response := mkResponse {
  resp_status : Z;
  resp_headers : Headers;
  resp_body : Value
}.

(** The conversion at the application boundary. *)
Definition to_response (r : Res Value) : Response :=
  match r with
  | Ret v => mkResponse 200 [("Content-Type", "application/json")] v
  | Raise (HttpExn e) => mkResponse (status_code e) (headers e) (VStr (text e))
  | Raise (NeedParamError _ _ as e) | Raise (BadParamError _ _ as e) =>
      mkResponse 400 [("Content-Type", "text/html")] (VStr (exn_str e))
  | Raise _ => mkResponse 500 [("Content-Type", "text/html")] (VStr "internal server error")
  end.

Definition respond (app : Application) (method path : string)
    (query body : Dict string) : Response :=
  to_response (fst (serve app method path query body)).

(** [with app.test_get(path, query) as ret]: the handler's result. *)
Definition test_get (app : Application) (path : string) (query : Dict string)
    : Res Value :=
  fst (serve app "GET" path query []).

(** ** The handlers and interceptor of [test/test_usage.py] *)

(** [def add1(a, b): return {'ans': a + b}] *)
Definition add1 : Handler :=
  mkHandler "add1" ""
    [mkParam "a" AnnNone None; mkParam "b" AnnNone None]
    (fun args =>
       match args with
       | [a; b] => s <- py_add a b ;; ret (VDict [("ans", s)])
       | _ => raise (TypeError "add1")
       end)
    [].

(** [def add2(ctx: Context, a, b): return {'ans': ctx.path + ':' + a + b}] *)
Definition add2 : Handler :=
  mkHandler "add2" ""
    [mkParam "ctx" AnnContext None; mkParam "a" AnnNone None; mkParam "b" AnnNone None]
    (fun args =>
       match args with
       | [c; a; b] =>
           p <- py_ctx_path c ;;
           s1 <- py_add p (VStr ":") ;;
           s2 <- py_add s1 a ;;
           s3 <- py_add s2 b ;;
           ret (VDict [("ans", s3)])
       | _ => raise (TypeError "add2")
       end)
    [].

(** [def wrapper(ctx): value = '[' + ctx()['ans'] + ']'; return {'ans': value}] *)
Definition wrapper : Interceptor :=
  fun next =>
    r <- next ;;
    x <- py_getitem r "ans" ;;
    v1 <- py_add (VStr "[") x ;;
    v <- py_add v1 (VStr "]") ;;
    ret (VDict [("ans", v)]).

Definition ab_query : Dict string := [("a", "a"); ("b", "b")].

(** ** The assertions of [TestUsage.test_fetch_param] *)

Example test_fetch_param_1 :
  test_get (add_mapping empty_app "/add" "GET" add1) "/add" ab_query
  = Ret (VDict [("ans", VStr "ab")]).
Proof. reflexivity. Qed.

Example test_fetch_param_2 :
  test_get (add_mapping empty_app "/add" "GET" add2) "/add" ab_query
  = Ret (VDict [("ans", VStr "/add:ab")]).
Proof. reflexivity. Qed.

Example test_fetch_param_4 :
  test_get (add_interceptor (add_mapping empty_app "/add" "GET" add2) wrapper)
    "/add" ab_query
  = Ret (VDict [("ans", VStr "[/add:ab]")]).
Proof. reflexivity. Qed.

Example test_fetch_param_5 :
  test_get (add_mapping empty_app "/add" "GET" (attach_interceptors add1 [wrapper]))
    "/add" ab_query
  = Ret (VDict [("ans", VStr "[ab]")]).
Proof. reflexivity. Qed.

Example test_fetch_param_6 :
  test_get (add_mapping empty_app "/add" "GET" (attach_interceptors add2 [wrapper]))
    "/add" ab_query
  = Ret (VDict [("ans", VStr "[/add:ab]")]).
Proof. reflexivity. Qed.

Example route_item_id :
  match_pattern "/item/{id}" "/item/5" = Some [("id", "5")].
Proof. reflexivity. Qed.

Example route_item_empty :
  match_pattern "/item/{id}" "/item/" = None.
Proof. reflexivity. Qed.

Example parse_int_neg : parse_int "-42" = Some (-42)%Z.
Proof. reflexivity. Qed.

Example coerce_bool_upper : coerce AnnBool "TRUE" = inr (VBool true).
Proof. reflexivity. Qed.

(** ** Instrumented interceptors and handlers *)

(** An interceptor that records its entry, calls its continuation and
    records its exit. *)
Definition tracer (name : string) : Interceptor :=
  fun next =>
    emit (EvEnter name) ;;;
    r <- next ;;
    emit (EvExit name) ;;;
    ret r.

(** A parameterless handler that records its execution and returns [v]. *)
Definition traced_handler (name : string) (v : Value) : Handler :=
  mkHandler name "" [] (fun _ => emit (EvHandler name) ;;; ret v) [].

(** An interceptor that never calls its continuation. *)
Definition short_circuit (v : Value) : Interceptor := fun _ => ret v.

Definition register_globals (app : Application) (is : list Interceptor) : Application :=
  fold_left add_interceptor is app.

Definition app_log (st : St) (evs : list Event) : St :=
  mkSt (ctx st) (log st ++ evs) (next_session st).

(** An interceptor that passes its continuation's result through
    unchanged: it runs the continuation once, possibly after changing the
    state ([before]), and returns the continuation's outcome (value or
    exception), possibly changing the state afterwards ([after]). *)
Definition passes_through (i : Interceptor) : Prop :=
  exists (before : St -> St) (after : Res Value -> St -> St),
    forall (k : M Value) (st : St),
      i k st = (fst (k (before st)), after (fst (k (before st))) (snd (k (before st)))).

(** ** Lemmas on the monad and the chain *)

Lemma emit_app_log (ev : Event) (st : St) :
  emit ev st = (Ret tt, app_log st [ev]).
Proof. reflexivity. Qed.

Lemma app_log_app_log (st : St) (xs ys : list Event) :
  app_log (app_log st xs) ys = app_log st (xs ++ ys).
Proof. unfold app_log; simpl; now rewrite app_assoc. Qed.

Lemma build_chain_app (is1 is2 : list Interceptor) (h : Handler) :
  build_chain (is1 ++ is2) h
  = fold_right (fun (i : Interceptor) (k : M Value) => i k) (build_chain is2 h) is1.
Proof. unfold build_chain; now rewrite fold_right_app. Qed.

(** Tracers around any computation that completes: all entries in list
    order, the computation, all exits in reverse order. *)
Lemma tracers_run (l : list string) (k : M Value) (st st' : St) (r : Value) :
  k (app_log st (map EvEnter l)) = (Ret r, st') ->
  fold_right (fun (i : Interceptor) (k : M Value) => i k) k (map tracer l) st
  = (Ret r, app_log st' (map EvExit (rev l))).
Proof.
  revert st st'.
  induction l as [|a l IH]; intros st st' Hk.
  - simpl in *. unfold app_log in *. destruct st as [c lg n]; simpl in *.
    rewrite app_nil_r in Hk. rewrite Hk. destruct st' as [c' lg' n']. simpl.
    now rewrite app_nil_r.
  - simpl. unfold tracer at 1.
    assert (Hrest : fold_right (fun (i : Interceptor) (k : M Value) => i k) k
                      (map tracer l) (app_log st [EvEnter a])
                    = (Ret r, app_log st' (map EvExit (rev l)))).
    { apply IH. rewrite app_log_app_log. exact Hk. }
    unfold bind. rewrite emit_app_log. rewrite Hrest.
    rewrite emit_app_log. unfold ret. rewrite app_log_app_log.
    now rewrite map_app.
Qed.

Lemma tracer_passes_through (name : string) : passes_through (tracer name).
Proof.
  exists (fun st => app_log st [EvEnter name]).
  exists (fun r st => match r with Ret _ => app_log st [EvExit name] | Raise _ => st end).
  intros k st. unfold tracer, bind. rewrite emit_app_log.
  destruct (k (app_log st [EvEnter name])) as [[r|e] st'].
  - reflexivity.
  - reflexivity.
Qed.

Lemma register_globals_routes (app : Application) (is : list Interceptor) :
  routes (register_globals app is) = routes app
  /\ interceptors (register_globals app is) = interceptors app ++ is
  /\ app_processor (register_globals app is) = app_processor app.
Proof.
  revert app; induction is as [|i is IH]; intros app; simpl.
  - now rewrite app_nil_r.
  - unfold register_globals in IH. destruct (IH (add_interceptor app i)) as (H1 & H2 & H3).
    unfold register_globals; simpl. rewrite H1, H2, H3. simpl.
    now rewrite <- app_assoc.
Qed.

(** The application with global interceptors [gis] and one route
    [GET /r] to the handler [h]. *)
Definition one_route_app (gis : list Interceptor) (h : Handler) : Application :=
  register_globals (add_mapping empty_app "/r" "GET" h) gis.

(** A handler with doc ["adds two numbers"] and one [int] parameter [x]. *)
Definition int_handler : Handler :=
  mkHandler "int_handler" "adds two numbers" [mkParam "x" AnnInt None] (fun _ => ret VNone) [].

Definition req_st : St := mkSt (mkContext "/r" "GET" [] [] [] None) [] 0.

Lemma serve_one_route (gis : list Interceptor) (h : Handler) :
  serve (one_route_app gis h) "GET" "/r" [] []
  = build_chain (gis ++ h_interceptors h) h req_st.
Proof.
  unfold serve, one_route_app, dispatch.
  destruct (register_globals_routes (add_mapping empty_app "/r" "GET" h) gis)
    as (H1 & H2 & H3).
  rewrite H1, H2, H3. reflexivity.
Qed.

Lemma traced_chain (gl pl : list string) (H : string) (v : Value) :
  serve (one_route_app (map tracer gl) (attach_interceptors (traced_handler H v) (map tracer pl)))
    "GET" "/r" [] []
  = (Ret v, app_log req_st (map EvEnter (gl ++ pl) ++ [EvHandler H]
                            ++ map EvExit (rev (gl ++ pl)))).
Proof.
  rewrite serve_one_route. simpl h_interceptors.
  rewrite <- map_app. unfold build_chain.
  rewrite (tracers_run (gl ++ pl) _ req_st
             (app_log req_st (map EvEnter (gl ++ pl) ++ [EvHandler H])) v).
  - rewrite app_log_app_log. now rewrite <- app_assoc.
  - reflexivity.
Qed.

(** ** Lemmas on the binder *)

(** What the binder gives a parameter: the live Context for a parameter
    typed Context; otherwise the coercion of the value found first in
    path, query and body, or the declared default when no source has the
    name. *)
Definition bound_value (c : Context) (p : Param) (v : Value) : Prop :=
  (p_ann p = AnnContext /\ v = VCtx)
  \/ (p_ann p <> AnnContext
      /\ ((exists raw, resolve c (p_name p) = Some raw /\ coerce (p_ann p) raw = inr v)
          \/ (resolve c (p_name p) = None /\ p_default p = Some v))).

Lemma bind_param_bound (doc : string) (c : Context) (p : Param) (v : Value) :
  bind_param doc c p = Ret v -> bound_value c p v.
Proof.
  unfold bind_param, bound_value. intros Hb.
  destruct (p_ann p) eqn:Ha;
    try (left; split; [reflexivity | congruence]);
    (right; split; [discriminate|]);
    (destruct (resolve c (p_name p)) as [raw|] eqn:Hr;
     [ left; exists raw; split; [reflexivity|];
       destruct (coerce _ raw); congruence
     | right; split; [reflexivity|]; destruct (p_default p); congruence ]).
Qed.

Lemma bind_args_bound (doc : string) (c : Context) (ps : list Param) (vs : list Value) :
  bind_args doc c ps = Ret vs -> Forall2 (bound_value c) ps vs.
Proof.
  revert vs; induction ps as [|p ps IH]; intros vs Hb; simpl in Hb.
  - inversion Hb; constructor.
  - destruct (bind_param doc c p) as [v|e] eqn:Hp; [|discriminate].
    destruct (bind_args doc c ps) as [vs'|e] eqn:Hr; [|discriminate].
    inversion Hb; subst. constructor.
    + now apply (bind_param_bound doc).
    + now apply IH.
Qed.

Lemma bind_param_context (doc : string) (c : Context) (p : Param) :
  p_ann p = AnnContext -> bind_param doc c p = Ret VCtx.
Proof. unfold bind_param. now intros ->. Qed.

(** A handler [item(id)] returning its argument, on [GET /item/{id}]. *)
Definition echo_id : Handler :=
  mkHandler "item" "" [mkParam "id" AnnNone None]
    (fun args => match args with [v] => ret v | _ => raise (TypeError "item") end) [].

Definition item_app : Application := add_mapping empty_app "/item/{id}" "GET" echo_id.

(** ** Lemmas on dictionaries *)

Lemma dict_get_set_same {V} (k : string) (v : V) (d : Dict V) :
  dict_get k (dict_set k v d) = Some v.
Proof.
  induction d as [|[k' v'] d IH]; simpl.
  - now rewrite String.eqb_refl.
  - destruct (String.eqb k k') eqn:E; simpl.
    + now rewrite E.
    + now rewrite E.
Qed.

Lemma dict_get_set_other {V} (k k' : string) (v : V) (d : Dict V) :
  k <> k' -> dict_get k (dict_set k' v d) = dict_get k d.
Proof.
  intros Hne. induction d as [|[k'' v''] d IH]; simpl.
  - destruct (String.eqb k k') eqn:E; [apply String.eqb_eq in E; contradiction|reflexivity].
  - destruct (String.eqb k' k'') eqn:E'; simpl.
    + apply String.eqb_eq in E'; subst k''.
      destruct (String.eqb k k') eqn:E; [apply String.eqb_eq in E; contradiction|reflexivity].
    + destruct (String.eqb k k''); [reflexivity|exact IH].
Qed.

(** ** The processor's run, step by step *)



(** [del ctx.db] *)
Definition del_db : M unit :=
  c <- get_ctx ;; put_ctx (set_ctx_db c None).

Definition gd_plain : GlobalData := mkGlobalData false None None.

(** ** The rest of the HTTP error family ([webapi.py]) *)

(** [_Redirect.__init__]: [dict(headers, **{'Content-Type': 'text/html',
    'Location': fullurl})]; [dict(None, ...)] raises [TypeError]. *)
Definition Redirect_init (status_code : Z) (fullurl : string)
    (headers : option Headers) : Res HttpError :=
  match headers with
  | None => Raise (TypeError "'NoneType' object is not iterable")
  | Some h =>
      Ret (HttpError_init status_code ""
             (Some (dict_set "Location" fullurl (dict_set "Content-Type" "text/html" h))))
  end.

(** [Found(url, headers=None)]: [headers = headers or {}] first. *)
Definition Found (url : string) (headers : option Headers) : Res HttpError :=
  Redirect_init 302 url (Some (match headers with Some h => h | None => [] end)).

(** [SeeOther(url, headers=None)] *)
Definition SeeOther (url : string) (headers : option Headers) : Res HttpError :=
  Redirect_init 303 url (Some (match headers with Some h => h | None => [] end)).

(** [TempRedirect(url, headers=None)]: passes [headers] on as it is. *)
Definition TempRedirect (url : string) (headers : option Headers) : Res HttpError :=
  Redirect_init 307 url headers.

(** [NotModified()] *)
Definition NotModified : HttpError := HttpError_init 304 "" None.

Definition BadRequest (text : string) (headers : option Headers) : HttpError :=
  TextHttpError_init 400 text headers.
Definition Unauthorized (text : string) (headers : option Headers) : HttpError :=
  TextHttpError_init 401 text headers.
Definition Forbidden (text : string) (headers : option Headers) : HttpError :=
  TextHttpError_init 403 text headers.
Definition NotAcceptable (text : string) (headers : option Headers) : HttpError :=
  TextHttpError_init 406 text headers.
Definition Conflict (text : string) (headers : option Headers) : HttpError :=
  TextHttpError_init 409 text headers.
Definition Gone (text : string) (headers : option Headers) : HttpError :=
  TextHttpError_init 410 text headers.
Definition PreconditionFailed (text : string) (headers : option Headers) : HttpError :=
  TextHttpError_init 412 text headers.
Definition UnsupportedMediaType (text : string) (headers : option Headers) : HttpError :=
  TextHttpError_init 415 text headers.
Definition UnavailableForLegalReasons (text : string) (headers : option Headers) : HttpError :=
  TextHttpError_init 451 text headers.
Definition InternalError (text : string) (headers : option Headers) : HttpError :=
  TextHttpError_init 500 text headers.

(** The text errors, each applied to a text and caller headers
    ([NoMethod] also to its [methods] argument). *)
Definition text_errors (txt : string) (methods : option (list string))
    (hs : option Headers) : list HttpError :=
  [BadRequest txt hs; Unauthorized txt hs; Forbidden txt hs; NoMethod txt methods hs;
   NotAcceptable txt hs; Conflict txt hs; Gone txt hs; PreconditionFailed txt hs;
   UnsupportedMediaType txt hs; UnavailableForLegalReasons txt hs; InternalError txt hs].

(** [status_table] *)
Definition status_table : list (Z * string) :=
  [(200, "OK"); (201, "Created"); (202, "Accepted"); (204, "No Content");
   (301, "Moved Permanently"); (302, "Found"); (303, "See Other");
   (304, "Not Modified"); (307, "Temporary Redirect"); (400, "Bad Request");
   (401, "Unauthorized"); (403, "Forbidden"); (404, "Not Found");
   (405, "Method Not Allowed"); (406, "Not Acceptable"); (409, "Conflict");
   (410, "Gone"); (412, "Precondition Failed"); (415, "Unsupported Media Type");
   (422, "Unprocessable Entity"); (451, "Unavailable For Legal Reasons");
   (500, "Internal Server Error")]%Z.

Fixpoint status_reason (code : Z) (t : list (Z * string)) : option string :=
  match t with
  | [] => None
  | (c, r) :: t' => if Z.eqb code c then Some r else status_reason code t'
  end.

(** Every error value the error classes can build. *)
Definition built_errors (txt url : string) (hs : option Headers)
    (methods : option (list string)) : list HttpError :=
  [NotModified; NotFound txt hs]
  ++ text_errors txt methods hs
  ++ flat_map (fun r => match r with Ret e => [e] | Raise _ => [] end)
       [Found url hs; SeeOther url hs; TempRedirect url hs].

(** ** Dump helpers of the database plugin ([plugin/database.py])

    A query is the list of rows it yields ([None] for a Python [None]);
    [count()] is its length and [offset(n).limit(m).all()] the slice.
    [dump] is the rows' own [dump()] method. *)

Section Dump.
Variable Row : Type.
Variable dump : Row -> Value.

(** [dumpall]: [None | dumpall] is [[]], otherwise the dumps in order. *)
Definition dumpall (other : option (list Row)) : list Value :=
  match other with
  | None => []
  | Some rows => map dump rows
  end.

(** [dumpone] *)
Definition dumpone (other : option Row) : Value :=
  match other with
  | None => VNone
  | Some r => dump r
  end.

(** [DumpPageModel] *)
Record PageModel := mkPageModel { pm_pageNo : Z; pm_pageSize : Z }.

(** [DumpPageModel.__init__] (= [dumppage]): a page number below 1
    becomes 1; [None] is the [AssertionError] of [pageSize >= 1]. *)
Definition dumppage (pageNo pageSize : Z) : option PageModel :=
  let pageNo := if (pageNo <? 1)%Z then 1%Z else pageNo in
  if (pageSize >=? 1)%Z then Some (mkPageModel pageNo pageSize) else None.

(** The attributes of a [PagedList] ([lessweb/model.py], not in the
    sources) that [DumpPageModel.__ror__] sets; [list] starts empty (it
    is extended), [totalNum] is [None] as long as the code leaves it
    unassigned. *)
Record PagedList := mkPagedList {
  pl_list : list Value;
  pl_totalNum : option Z;
  pl_pageNo : Z;
  pl_pageSize : Z
}.

(** [query.offset(n).limit(m).all()] *)
Definition offset_limit (rows : list Row) (n m : Z) : list Row :=
  firstn (Z.to_nat m) (skipn (Z.to_nat n) rows).

(** [DumpPageModel.__ror__] *)
Definition dump_page (pm : PageModel) (other : option (list Row)) : PagedList :=
  match other with
  | None => mkPagedList [] None (pm_pageNo pm) (pm_pageSize pm)
  | Some rows =>
      let totalNum := Z.of_nat (length rows) in
      let dbitems := offset_limit rows ((pm_pageNo pm - 1) * pm_pageSize pm) (pm_pageSize pm) in
      if (totalNum >? 0)%Z
      then mkPagedList (map dump dbitems) (Some totalNum) (pm_pageNo pm) (pm_pageSize pm)
      else mkPagedList [] None (pm_pageNo pm) (pm_pageSize pm)
  end.

(** The lists of pages [1 .. k] of the same size, concatenated. *)
Fixpoint pages_upto (k : nat) (size : Z) (rows : list Row) : list Value :=
  match k with
  | O => []
  | S k' =>
      pages_upto k' size rows
      ++ match dumppage (Z.of_nat k) size with
         | Some pm => pl_list (dump_page pm (Some rows))
         | None => []
         end
  end.

End Dump.

Arguments dumpall {Row} dump other.
Arguments dumpone {Row} dump other.
Arguments offset_limit {Row} rows n m.
Arguments dump_page {Row} dump pm other.
Arguments pages_upto {Row} dump k size rows.

(** ** Model mixins of the database plugin ([plugin/database.py])

    An instance is its [__dict__] (in insertion order), the names of
    its class's properties that have no setter, on which [setattr] raises
    [AttributeError], and the class-level hooks that intercept an
    assignment (a property setter, a validator of a mapped column). *)

(** A hook receives the assigned value and the instance's [__dict__];
    it returns the new [__dict__] or raises. *)
Definition Setter := Value -> Dict Value -> Exn + Dict Value.

Record PyObj := mkPyObj {
  o_readonly : list string;
  o_setters : Dict Setter;
  o_dict : Dict Value
}.

(** The errors these helpers can raise: [k[0]] on an empty key, a
    call [f(self, **d)] where [d] has the key ['self'], and an exception
    of an assignment hook that the [except AttributeError] clause does
    not catch. *)
Inductive ObjErr := ObjIndexError | ObjTypeError | ObjRaised (e : Exn).

(** [k[0] != '_'] *)
Definition py_public (k : string) : ObjErr + bool :=
  match k with
  | EmptyString => inl ObjIndexError
  | String c _ => inr (negb (Ascii.eqb c "_"%char))
  end.

(** [_db_model_storage]: the [__dict__] entries whose key does not start
    with ['_']. *)
Fixpoint filter_public (d : Dict Value) : ObjErr + Dict Value :=
  match d with
  | [] => inr []
  | (k, v) :: d' =>
      match py_public k with
      | inl e => inl e
      | inr b =>
          match filter_public d' with
          | inl e => inl e
          | inr r => inr (if b then (k, v) :: r else r)
          end
      end
  end.

Definition db_model_storage (o : PyObj) : ObjErr + Dict Value := filter_public (o_dict o).

(** The outcome of [setattr(self, k, v)] inside the [try] of
    [_db_model_setall]: the updated instance, an [AttributeError] (caught
    by the [except] clause), or another exception, which propagates. *)
Inductive SetRes :=
| SetDone (o : PyObj)
| SetCaught
| SetRaised (e : Exn).

(** [setattr(self, k, v)]: a property without setter raises
    [AttributeError]; an assignment hook decides the new [__dict__] or
    raises; any other attribute is written to [__dict__]. *)
Definition py_setattr (o : PyObj) (k : string) (v : Value) : SetRes :=
  if existsb (String.eqb k) (o_readonly o) then SetCaught
  else
    match dict_get k (o_setters o) with
    | None => SetDone (mkPyObj (o_readonly o) (o_setters o) (dict_set k v (o_dict o)))
    | Some f =>
        match f v (o_dict o) with
        | inr d => SetDone (mkPyObj (o_readonly o) (o_setters o) d)
        | inl (AttributeError _) => SetCaught
        | inl e => SetRaised e
        end
    end.

(** The [for k, v in kwargs.items()] loop of [_db_model_setall].  The
    instance is updated in place, so its state after the call is returned
    together with the exception, if one was raised. *)
Fixpoint setall_kwargs (o : PyObj) (kvs : Dict Value) : PyObj * option ObjErr :=
  match kvs with
  | [] => (o, None)
  | (k, v) :: kvs' =>
      match py_public k with
      | inl e => (o, Some e)
      | inr false => setall_kwargs o kvs'
      | inr true =>
          match py_setattr o k v with
          | SetDone o' => setall_kwargs o' kvs'
          | SetCaught => setall_kwargs o kvs'
          | SetRaised e => (o, Some (ObjRaised e))
          end
      end
  end.

(** [_db_model_setall(self, *mapping, **kwargs)]: only [mapping[0]] is
    used, applied first; a key ['self'] in what is passed with [**]
    collides with the parameter [self]. *)
Definition db_model_setall (o : PyObj) (mapping : list (Dict Value)) (kwargs : Dict Value)
    : PyObj * option ObjErr :=
  if dict_has "self" kwargs then (o, Some ObjTypeError) else
  match mapping with
  | [] => setall_kwargs o kwargs
  | m :: _ =>
      if dict_has "self" m then (o, Some ObjTypeError)
      else
        match setall_kwargs o m with
        | (o1, Some e) => (o1, Some e)
        | (o1, None) => setall_kwargs o1 kwargs
        end
  end.

(** [_db_model_copy(self, *mapping, **kwargs)]; [fresh] is the
    [__dict__] of [self.__class__()].  [self] is not modified. *)
Definition db_model_copy (o : PyObj) (fresh : Dict Value) (mapping : list (Dict Value))
    (kwargs : Dict Value) : ObjErr + PyObj :=
  let ret := mkPyObj (o_readonly o) (o_setters o) fresh in
  match db_model_storage o with
  | inl e => inl e
  | inr st =>
      match db_model_setall ret [] st with
      | (_, Some e) => inl e
      | (ret, None) =>
          let r2 := match mapping with
                    | [] => (ret, None)
                    | m :: _ => db_model_setall ret [] m
                    end in
          match r2 with
          | (_, Some e) => inl e
          | (ret, None) =>
              match db_model_setall ret [] kwargs with
              | (_, Some e) => inl e
              | (ret, None) => inr ret
              end
          end
      end
  end.

(** Whether [setall] writes the key [k] of [o]: it does not start with
    ['_'] and is no property without setter. *)
Definition writable (o : PyObj) (k : string) : bool :=
  match k with
  | EmptyString => false
  | String c _ => negb (Ascii.eqb c "_"%char)
  end && negb (existsb (String.eqb k) (o_readonly o)).

Definition no_empty_key (d : Dict Value) : Prop := ~ In "" (map fst d).

(** No key of [d] has an assignment hook in the class of [o]. *)
Definition no_hook (o : PyObj) (d : Dict Value) : Prop :=
  forall k, In k (map fst d) -> dict_get k (o_setters o) = None.

(** [k[0] != '_'] on a key that is known to be non-empty. *)
Definition public_b (k : string) : bool :=
  match k with EmptyString => false | String c _ => negb (Ascii.eqb c "_"%char) end.

(** ** [create_all] *)

(** An argument of [create_all]: a model class, or a list or tuple. *)
Inductive ModelArg :=
| MClass (name : string)
| MSeq (items : list ModelArg).

(** The [for] loop: [db_class.metadata.create_all(engine)] for each
    argument in order; a list or tuple has no attribute [metadata].  The
    classes whose [metadata.create_all] was called are returned together
    with the exception, if one was raised. *)
Fixpoint create_each (args : list ModelArg) : list string * option Exn :=
  match args with
  | [] => ([], None)
  | MClass n :: rest => let '(done, e) := create_each rest in (n :: done, e)
  | MSeq _ :: _ => ([], Some (AttributeError "metadata"))
  end.

(** [create_all(a)] with a single argument: a list or tuple is unpacked
    by the recursive call [create_all( *a)]. *)
Fixpoint create_all_one (a : ModelArg) : list string * option Exn :=
  match a with
  | MSeq [b] => create_all_one b
  | MSeq l => create_each l
  | MClass n => create_each [MClass n]
  end.

(** [create_all( *DbModelClass)] *)
Definition create_all (args : list ModelArg) : list string * option Exn :=
  match args with
  | [a] => create_all_one a
  | _ => create_each args
  end.

(** ** The engine URI built by [init] *)

(** The bytes [urllib.parse.quote] (with its default [safe='/']) leaves
    unchanged: ASCII letters and digits, [_.-~] and [/]. *)
Definition quote_safe (c : ascii) : bool :=
  let n := nat_of_ascii c in
  ((48 <=? n)%nat && (n <=? 57)%nat) || ((65 <=? n)%nat && (n <=? 90)%nat)
  || ((97 <=? n)%nat && (n <=? 122)%nat)
  || Ascii.eqb c "_"%char || Ascii.eqb c "."%char || Ascii.eqb c "-"%char
  || Ascii.eqb c "~"%char || Ascii.eqb c "/"%char.

(** An upper-case hexadecimal digit. *)
Definition hex_digit (n : nat) : ascii :=
  ascii_of_nat (if (n <? 10)%nat then (48 + n)%nat else (55 + n)%nat).

(** [quote(s)] on the (UTF-8) bytes of [s]: every other byte becomes
    [%XX]. *)
Fixpoint quote (s : string) : string :=
  match s with
  | EmptyString => EmptyString
  | String c s' =>
      if quote_safe c then String c (quote s')
      else String "%"%char
             (String (hex_digit (nat_of_ascii c / 16)%nat)
                (String (hex_digit (nat_of_ascii c mod 16)%nat) (quote s')))
  end.

Definition hex_val (c : ascii) : option nat :=
  let n := nat_of_ascii c in
  if (48 <=? n)%nat && (n <=? 57)%nat then Some (n - 48)%nat
  else if (65 <=? n)%nat && (n <=? 70)%nat then Some (n - 55)%nat
  else if (97 <=? n)%nat && (n <=? 102)%nat then Some (n - 87)%nat
  else None.

(** [urllib.parse.unquote_to_bytes]: the decoding of [%XX] escapes (either
    case); a [%] not followed by two hexadecimal digits is kept. *)
Fixpoint unquote_to_bytes (s : string) : string :=
  match s with
  | EmptyString => EmptyString
  | String c s' =>
      if Ascii.eqb c "%"%char then
        match s' with
        | String h (String l s'') =>
            match hex_val h, hex_val l with
            | Some a, Some b => String (ascii_of_nat (16 * a + b)%nat) (unquote_to_bytes s'')
            | _, _ => String c (unquote_to_bytes s')
            end
        | _ => String c (unquote_to_bytes s')
        end
      else String c (unquote_to_bytes s')
  end.

(** [str.format] of a value that is a string or [None]. *)
Definition fmt_str (o : option string) : string :=
  match o with Some s => s | None => "None" end.

(** [str.format] of an [int] or [None]. *)
Definition fmt_port (o : option Z) : string :=
  match o with
  | Some z => DecimalString.NilZero.string_of_int (Z.to_int z)
  | None => "None"
  end.

(** The URI [init] passes to [create_engine]: [dburi] when it is truthy,
    otherwise the formatted components; [quote(None)] raises
    [TypeError]. *)
Definition init_uri (protocol username password host : option string) (port : option Z)
    (entity dburi : option string) : Exn + string :=
  match dburi with
  | Some (String _ _ as d) => inr d
  | _ =>
      match username, password with
      | Some u, Some p =>
          inr (fmt_str protocol ++ "://" ++ quote u ++ ":" ++ quote p ++ "@"
               ++ fmt_str host ++ ":" ++ fmt_port port ++ "/" ++ fmt_str entity)%string
      | _, _ => inl (TypeError "quote_from_bytes() expected bytes")
      end
  end.

(** The prefix of [s] up to the first [c], and what follows it. *)
Fixpoint split_at (c : ascii) (s : string) : string * option string :=
  match s with
  | EmptyString => (EmptyString, None)
  | String d s' =>
      if Ascii.eqb d c then (EmptyString, Some s')
      else let '(a, r) := split_at c s' in (String d a, r)
  end.


(** * Claims *)

(** C1 (ordering law).  Global interceptors registered in the order
    [A, B], a per-handler interceptor [C] attached to the handler [H]:
    invoking the route runs A-enter, B-enter, C-enter, H, C-exit, B-exit,
    A-exit.  In general the chain is built over the global list followed
    by the per-handler list, and the first interceptor of that list is the
    outermost one: it enters first and exits last. *)
Theorem interceptor_ordering_law (A B C H : string) (v : Value) :
  serve (one_route_app [tracer A; tracer B]
           (attach_interceptors (traced_handler H v) [tracer C]))
    "GET" "/r" [] []
  = (Ret v, app_log req_st [EvEnter A; EvEnter B; EvEnter C; EvHandler H;
                           EvExit C; EvExit B; EvExit A])
  /\ forall gl pl : list string,
       log (snd (serve (one_route_app (map tracer gl)
                          (attach_interceptors (traced_handler H v) (map tracer pl)))
                   "GET" "/r" [] []))
       = map EvEnter (gl ++ pl) ++ [EvHandler H] ++ map EvExit (rev (gl ++ pl)).
Proof.
  split.
  - exact (traced_chain [A; B] [C] H v).
  - intros gl pl. rewrite traced_chain. reflexivity.
Qed.

(** C2, as the claim states it, fails: an interceptor placed before the
    short-circuiting one post-processes its result.  With the chain
    [wrapper; short_circuit {"ans": "x"}], the final result is
    [{"ans": "[x]"}], not the short-circuiting interceptor's own value. *)
Lemma short_circuit_result_not_final :
  let x := VDict [("ans", VStr "x")] in
  fst (serve (one_route_app [wrapper] (attach_interceptors (traced_handler "H" VNone) [short_circuit x]))
         "GET" "/r" [] [])
  = Ret (VDict [("ans", VStr "[x]")])
  /\ fst (serve (one_route_app [wrapper] (attach_interceptors (traced_handler "H" VNone) [short_circuit x]))
            "GET" "/r" [] [])
     <> Ret x.
Proof. split; [reflexivity | discriminate]. Qed.

(** C2 (short-circuit law, amended).  Let [I] be an interceptor that
    never calls its continuation (its behaviour does not depend on it).
    Then (1) neither the interceptors after it nor the handler execute:
    replacing them changes nothing in the run; (2) the sub-chain starting
    at [I] is [I]'s own computation, so [I]'s return value is what the
    interceptor before it receives from its continuation, and the final
    result when [I] is first; (3) when the interceptors before it are
    tracers, the run is their entries, [I], their exits, with [I]'s value
    as result; (4) more generally, when every interceptor before [I]
    passes its continuation's result through unchanged, the chain's final
    outcome is [I]'s own outcome, run on the state those interceptors
    hand on. *)
Theorem short_circuit_law (pre post post' : list Interceptor) (I : Interceptor)
    (h h' : Handler) (HI : forall k k' : M Value, I k = I k') :
  build_chain (pre ++ I :: post) h = build_chain (pre ++ I :: post') h'
  /\ (forall k : M Value, build_chain (I :: post) h = I k)
  /\ (forall (names : list string) (st st' : St) (v : Value),
        I (ret VNone) (app_log st (map EvEnter names)) = (Ret v, st') ->
        build_chain (map tracer names ++ I :: post) h st
        = (Ret v, app_log st' (map EvExit (rev names))))
  /\ (Forall passes_through pre ->
      exists B : St -> St, forall (st : St) (k : M Value),
        fst (build_chain (pre ++ I :: post) h st) = fst (I k (B st))).
Proof.
  split; [|split; [|split]].
  - rewrite !build_chain_app. simpl. now rewrite (HI (build_chain post h) (build_chain post' h')).
  - intros k. simpl. apply HI.
  - intros names st st' v Hrun. rewrite build_chain_app.
    apply tracers_run. simpl. now rewrite (HI _ (ret VNone)).
  - induction pre as [|p pre IH]; intros Hpt.
    + exists (fun st => st). intros st k. simpl. now rewrite (HI _ k).
    + inversion Hpt as [|? ? Hp Hpre]; subst.
      destruct (IH Hpre) as [B HB].
      destruct Hp as (before & after & Hp).
      exists (fun st => B (before st)). intros st k.
      cbn [app build_chain fold_right]. fold (build_chain (pre ++ I :: post) h).
      rewrite Hp. cbn [fst]. apply HB.
Qed.

Lemma short_circuit_law_witness :
  (forall k k' : M Value,
     short_circuit (VDict [("ans", VStr "x")]) k = short_circuit (VDict [("ans", VStr "x")]) k')
  /\ Forall passes_through [tracer "A"; tracer "B"]
  /\ (exists B : St -> St, forall (st : St) (k : M Value),
        fst (build_chain ([tracer "A"; tracer "B"] ++ short_circuit (VDict [("ans", VStr "x")]) :: [wrapper]) add1 st)
        = fst (short_circuit (VDict [("ans", VStr "x")]) k (B st))).
Proof.
  assert (HI : forall k k' : M Value,
     short_circuit (VDict [("ans", VStr "x")]) k = short_circuit (VDict [("ans", VStr "x")]) k')
    by (intros k k'; reflexivity).
  assert (Hpt : Forall passes_through [tracer "A"; tracer "B"])
    by (repeat constructor; apply tracer_passes_through).
  split; [exact HI|split; [exact Hpt|]].
  exact (proj2 (proj2 (proj2
    (short_circuit_law [tracer "A"; tracer "B"] [wrapper] [] (short_circuit (VDict [("ans", VStr "x")]))
       add1 add1 HI))) Hpt).
Defined.

(** C3 (binding priority).  A parameter not typed Context is looked up
    by name in the path parameters, then the query parameters, then the
    body fields, and the first source that has the name wins; every value
    the binder produces for such a parameter is the coercion of that
    first value (or the declared default when no source has the name).
    For the pattern [/item/{id}] and a request to [/item/5?id=9] the
    bound value is ["5"]. *)
Theorem binding_priority :
  (forall (c : Context) (name v : string),
     resolve c name = Some v
     <-> dict_get name (ctx_path_params c) = Some v
         \/ (dict_get name (ctx_path_params c) = None /\ dict_get name (ctx_query c) = Some v)
         \/ (dict_get name (ctx_path_params c) = None /\ dict_get name (ctx_query c) = None
             /\ dict_get name (ctx_body c) = Some v))
  /\ (forall (doc : string) (c : Context) (ps : list Param) (vs : list Value),
        bind_args doc c ps = Ret vs ->
        Forall2 (fun p v => p_ann p <> AnnContext ->
                   (exists raw, resolve c (p_name p) = Some raw /\ coerce (p_ann p) raw = inr v)
                   \/ (resolve c (p_name p) = None /\ p_default p = Some v)) ps vs)
  /\ fst (serve item_app "GET" "/item/5" [("id", "9")] []) = Ret (VStr "5")
  /\ fst (serve item_app "GET" "/item/5" [("id", "9")] [("id", "7")]) = Ret (VStr "5").
Proof.
  split; [|split; [|split]].
  - intros c name v. unfold resolve.
    destruct (dict_get name (ctx_path_params c)) as [x|];
      destruct (dict_get name (ctx_query c)) as [y|];
      destruct (dict_get name (ctx_body c)) as [z|];
      split; intros H; intuition congruence.
  - intros doc c ps vs Hb. apply bind_args_bound in Hb.
    eapply Forall2_impl; [|exact Hb].
    intros p v [[Ha _] | [_ Hv]]; intros Hn; [contradiction | exact Hv].
  - reflexivity.
  - reflexivity.
Qed.

Lemma binding_priority_witness :
  (resolve (mkContext "/item/5" "GET" [("id", "5")] [("id", "9")] [] None) "id" = Some "5"
   <-> dict_get "id" [("id", "5")] = Some "5"
       \/ (dict_get "id" [("id", "5")] = None /\ dict_get "id" [("id", "9")] = Some "5")
       \/ (dict_get "id" [("id", "5")] = None /\ dict_get "id" [("id", "9")] = None
           /\ dict_get "id" [] = Some "5"))
  /\ bind_args "" (mkContext "/item/5" "GET" [("id", "5")] [("id", "9")] [] None)
       (h_params echo_id) = Ret [VStr "5"]
  /\ Forall2 (fun p v => p_ann p <> AnnContext ->
                (exists raw, resolve (mkContext "/item/5" "GET" [("id", "5")] [("id", "9")] [] None)
                               (p_name p) = Some raw /\ coerce (p_ann p) raw = inr v)
                \/ (resolve (mkContext "/item/5" "GET" [("id", "5")] [("id", "9")] [] None)
                      (p_name p) = None /\ p_default p = Some v))
       (h_params echo_id) [VStr "5"].
Proof.
  split; [|split].
  - exact (proj1 binding_priority
             (mkContext "/item/5" "GET" [("id", "5")] [("id", "9")] [] None) "id" "5").
  - reflexivity.
  - exact (proj1 (proj2 binding_priority) ""
             (mkContext "/item/5" "GET" [("id", "5")] [("id", "9")] [] None)
             (h_params echo_id) [VStr "5"] eq_refl).
Defined.

(** C7 (Context injection).  A parameter typed Context is bound to the
    request's live Context, whatever the path, query and body hold, and
    is never looked up or coerced; every other parameter gets the value
    the binder draws from the request (the coerced first source, or its
    declared default).  With [add2(ctx: Context, a, b)] and a query that
    also has a [ctx] entry, [ctx] is still the Context: the handler reads
    the live path from it. *)
Theorem context_injection :
  (forall (doc : string) (c : Context) (p : Param),
     p_ann p = AnnContext -> bind_param doc c p = Ret VCtx)
  /\ (forall (doc : string) (c : Context) (ps : list Param) (vs : list Value),
        bind_args doc c ps = Ret vs -> Forall2 (bound_value c) ps vs)
  /\ test_get (add_mapping empty_app "/add" "GET" add2) "/add"
       [("ctx", "zzz"); ("a", "a"); ("b", "b")]
     = Ret (VDict [("ans", VStr "/add:ab")]).
Proof.
  split; [|split].
  - exact bind_param_context.
  - exact bind_args_bound.
  - reflexivity.
Qed.

Lemma context_injection_witness :
  bind_param "" (mkContext "/add" "GET" [("ctx", "p")] [("ctx", "q")] [("ctx", "r")] None)
    (mkParam "ctx" AnnContext None) = Ret VCtx
  /\ Forall2 (bound_value (mkContext "/add" "GET" [] [("ctx", "zzz"); ("a", "a"); ("b", "b")] [] None))
       (h_params add2) [VCtx; VStr "a"; VStr "b"].
Proof.
  split.
  - exact (proj1 context_injection ""
             (mkContext "/add" "GET" [("ctx", "p")] [("ctx", "q")] [("ctx", "r")] None)
             (mkParam "ctx" AnnContext None) eq_refl).
  - exact (proj1 (proj2 context_injection) ""
             (mkContext "/add" "GET" [] [("ctx", "zzz"); ("a", "a"); ("b", "b")] [] None)
             (h_params add2) [VCtx; VStr "a"; VStr "b"] eq_refl).
Defined.

(** C4, as the claim states it, fails: a [BadParamError] has the fields
    [query] and [error] only, so it does not carry the handler's doc.
    Two handlers that differ only in their doc raise the same error on
    the same bad input; no function of the error recovers the doc. *)
Lemma bad_param_error_lacks_doc :
  ~ (exists f : Exn -> string,
       forall (doc : string) (c : Context) (ps : list Param) (e : Exn),
         bind_args doc c ps = Raise e -> f e = doc).
Proof.
  intros [f Hf].
  pose (c := mkContext "/n" "GET" [] [("x", "abc")] [] None).
  pose (ps := [mkParam "x" AnnInt None]).
  assert (H1 := Hf "first doc" c ps (BadParamError "x" "invalid literal for int(): abc") eq_refl).
  assert (H2 := Hf "second doc" c ps (BadParamError "x" "invalid literal for int(): abc") eq_refl).
  rewrite H1 in H2. discriminate.
Qed.

(** C4 (binding errors, amended).  Every binding failure is one of two
    cases: a parameter (not typed Context) that no source has and that
    declares no default raises [NeedParamError] with the parameter name
    and the handler's doc; a parameter whose value fails coercion raises
    [BadParamError] with the parameter name and the coercion error.  Both
    cases arise exactly so.  The application answers both with a 400
    response whose body is the error's [__str__]: [query:<name> doc:<doc>]
    and [query:<name> error:<coercion error>] respectively; a request whose
    handler's binding fails gets exactly that response. *)
Theorem binding_error_taxonomy :
  (forall (doc : string) (c : Context) (ps : list Param) (e : Exn),
     bind_args doc c ps = Raise e ->
     exists p, In p ps /\ p_ann p <> AnnContext
       /\ ((resolve c (p_name p) = None /\ p_default p = None
            /\ e = NeedParamError (p_name p) doc)
           \/ (exists raw err, resolve c (p_name p) = Some raw
                 /\ coerce (p_ann p) raw = inl err
                 /\ e = BadParamError (p_name p) err)))
  /\ (forall (doc : string) (c : Context) (p : Param),
        p_ann p <> AnnContext -> resolve c (p_name p) = None -> p_default p = None ->
        bind_param doc c p = Raise (NeedParamError (p_name p) doc))
  /\ (forall (doc : string) (c : Context) (p : Param) (raw err : string),
        p_ann p <> AnnContext -> resolve c (p_name p) = Some raw ->
        coerce (p_ann p) raw = inl err ->
        bind_param doc c p = Raise (BadParamError (p_name p) err))
  /\ (forall q d, to_response (Raise (NeedParamError q d))
                  = mkResponse 400 [("Content-Type", "text/html")]
                      (VStr ("query:" ++ q ++ " doc:" ++ d)))
  /\ (forall q err, to_response (Raise (BadParamError q err))
                    = mkResponse 400 [("Content-Type", "text/html")]
                        (VStr ("query:" ++ q ++ " error:" ++ err)))
  /\ (forall (h : Handler) (query body : Dict string) (e : Exn),
        h_interceptors h = [] ->
        bind_args (h_doc h) (mkContext "/r" "GET" [] query body None) (h_params h) = Raise e ->
        respond (one_route_app [] h) "GET" "/r" query body = to_response (Raise e)).
Proof.
  split; [|split; [|split; [|split; [|split]]]].
  - intros doc c ps e. induction ps as [|p ps IH]; simpl; intros Hb; [discriminate|].
    destruct (bind_param doc c p) as [v|e'] eqn:Hp.
    + destruct (bind_args doc c ps) as [vs|e''] eqn:Hr; [discriminate|].
      inversion Hb; subst. destruct (IH eq_refl) as (q & Hin & Rest).
      exists q. split; [now right | exact Rest].
    + inversion Hb; subst. exists p. split; [now left|].
      unfold bind_param in Hp.
      destruct (p_ann p) eqn:Ha; try discriminate;
        (split; [discriminate|]);
        (destruct (resolve c (p_name p)) as [raw|] eqn:Hr;
         [ right; exists raw;
           destruct (coerce _ raw) as [err|v] eqn:Hc; [|discriminate];
           exists err; repeat split; congruence
         | left; destruct (p_default p); [discriminate|];
           repeat split; congruence ]).
  - intros doc c p Ha Hr Hd. unfold bind_param.
    destruct (p_ann p); [| contradiction | | |]; rewrite Hr, Hd; reflexivity.
  - intros doc c p raw err Ha Hr Hc. unfold bind_param.
    destruct (p_ann p); [| contradiction | | |]; rewrite Hr, Hc; reflexivity.
  - reflexivity.
  - reflexivity.
  - intros h query body e Hi Hb.
    unfold respond, serve, dispatch, one_route_app, register_globals. cbn [fold_left].
    cbn -[build_chain]. rewrite Hi. cbn [app build_chain fold_right].
    unfold terminal, bind, get_ctx, put_ctx. cbn [fst snd ctx]. rewrite Hb. reflexivity.
Qed.

Lemma binding_error_taxonomy_witness :
  bind_param "adds two numbers" (mkContext "/n" "GET" [] [] [] None) (mkParam "x" AnnInt None)
  = Raise (NeedParamError "x" "adds two numbers")
  /\ bind_param "adds two numbers" (mkContext "/n" "GET" [] [("x", "abc")] [] None)
       (mkParam "x" AnnInt None)
     = Raise (BadParamError "x" "invalid literal for int(): abc")
  /\ (exists p, In p [mkParam "x" AnnInt None] /\ p_ann p <> AnnContext
       /\ ((resolve (mkContext "/n" "GET" [] [] [] None) (p_name p) = None /\ p_default p = None
            /\ NeedParamError "x" "adds two numbers" = NeedParamError (p_name p) "adds two numbers")
           \/ (exists raw err, resolve (mkContext "/n" "GET" [] [] [] None) (p_name p) = Some raw
                 /\ coerce (p_ann p) raw = inl err
                 /\ NeedParamError "x" "adds two numbers" = BadParamError (p_name p) err)))
  /\ respond (one_route_app [] int_handler) "GET" "/r" [] []
     = mkResponse 400 [("Content-Type", "text/html")] (VStr "query:x doc:adds two numbers")
  /\ respond (one_route_app [] int_handler) "GET" "/r" [("x", "abc")] []
     = mkResponse 400 [("Content-Type", "text/html")]
         (VStr "query:x error:invalid literal for int(): abc").
Proof.
  split; [|split; [|split; [|split]]].
  - apply (proj1 (proj2 binding_error_taxonomy)); [discriminate | reflexivity | reflexivity].
  - apply (proj1 (proj2 (proj2 binding_error_taxonomy))) with (raw := "abc");
      [discriminate | reflexivity | reflexivity].
  - apply (proj1 binding_error_taxonomy "adds two numbers" (mkContext "/n" "GET" [] [] [] None)
             [mkParam "x" AnnInt None]).
    reflexivity.
  - rewrite (proj2 (proj2 (proj2 (proj2 (proj2 binding_error_taxonomy))))
               int_handler [] [] (NeedParamError "x" "adds two numbers") eq_refl eq_refl).
    exact (proj1 (proj2 (proj2 (proj2 binding_error_taxonomy))) "x" "adds two numbers").
  - rewrite (proj2 (proj2 (proj2 (proj2 (proj2 binding_error_taxonomy))))
               int_handler [("x", "abc")] [] (BadParamError "x" "invalid literal for int(): abc")
               eq_refl eq_refl).
    exact (proj1 (proj2 (proj2 (proj2 (proj2 binding_error_taxonomy))))
             "x" "invalid literal for int(): abc").
Defined.

(** C6 (method mismatch).  When the path matches a registered pattern
    but no route for it has the request's method, the response has
    status 405 and an [Allow] header listing the methods registered for
    that path, joined by [", "].  Registering only [GET /add] and
    requesting [POST /add] gives 405 with [Allow: GET]. *)
Theorem method_not_allowed :
  (forall (app : Application) (method path : string) (query body : Dict string),
     matching_routes (routes app) path <> [] ->
     filter (fun rp => String.eqb (r_method (fst rp)) method)
            (matching_routes (routes app) path) = [] ->
     resp_status (respond app method path query body) = 405%Z
     /\ dict_get "Allow" (resp_headers (respond app method path query body))
        = Some (join_str ", " (dedup (map (fun rp => r_method (fst rp))
                                          (matching_routes (routes app) path)))))
  /\ respond (add_mapping empty_app "/add" "GET" add1) "POST" "/add" [] []
     = mkResponse 405 [("Allow", "GET"); ("Content-Type", "text/html")] (VStr "").
Proof.
  split.
  - intros app method path query body Hne Hnone.
    unfold respond, serve, dispatch, route.
    destruct (matching_routes (routes app) path) as [|rp rps] eqn:Hm; [contradiction|].
    rewrite Hnone. split; reflexivity.
  - reflexivity.
Qed.

Lemma method_not_allowed_witness :
  matching_routes (routes (add_mapping empty_app "/add" "GET" add1)) "/add" <> []
  /\ filter (fun rp => String.eqb (r_method (fst rp)) "POST")
       (matching_routes (routes (add_mapping empty_app "/add" "GET" add1)) "/add") = []
  /\ (resp_status (respond (add_mapping empty_app "/add" "GET" add1) "POST" "/add" [] []) = 405%Z
      /\ dict_get "Allow" (resp_headers (respond (add_mapping empty_app "/add" "GET" add1)
                                          "POST" "/add" [] []))
         = Some (join_str ", " (dedup (map (fun rp => r_method (fst rp))
              (matching_routes (routes (add_mapping empty_app "/add" "GET" add1)) "/add"))))).
Proof.
  split; [discriminate|split; [reflexivity|]].
  apply (proj1 method_not_allowed); [discriminate | reflexivity].
Defined.

(** C8 (end-to-end).  [add1] on [GET /add] with [wrapper] registered
    globally: [GET /add?a=a&b=b] yields [{"ans": "[ab]"}]. *)
Theorem end_to_end_wrapper :
  test_get (add_interceptor (add_mapping empty_app "/add" "GET" add1) wrapper)
    "/add" ab_query
  = Ret (VDict [("ans", VStr "[ab]")]).
Proof. reflexivity. Qed.

(** C9, as the claim states it, fails: [NoMethod] merges the caller's
    headers, so [NoMethod(headers={'Allow': 'GET'})] has an [Allow] key
    although its [methods] argument is the falsy default. *)
Lemma no_method_allow_without_methods :
  headers (NoMethod "" NoMethod_default_methods (Some [("Allow", "GET")]))
  = [("Allow", "GET"); ("Content-Type", "text/html")]
  /\ truthy_list NoMethod_default_methods = false.
Proof. split; reflexivity. Qed.

(** C9 (NoMethod, amended).  A [NoMethod] error has status 405 and
    [Content-Type: text/html].  With a truthy [methods] argument its
    [Allow] header is the [", "]-joined methods, whatever the caller's
    headers held; with a falsy one (the default [None and [...]], which is
    [None], or an empty list) its [Allow] entry is the caller's, if any.
    [NoMethod()] has exactly the headers [{Content-Type: text/html}]. *)
Theorem no_method_headers :
  (forall (txt : string) (methods : option (list string)) (hs : option Headers),
     status_code (NoMethod txt methods hs) = 405%Z
     /\ dict_get "Content-Type" (headers (NoMethod txt methods hs)) = Some "text/html")
  /\ (forall (txt : string) (ms : list string) (hs : option Headers),
        truthy_list (Some ms) = true ->
        dict_get "Allow" (headers (NoMethod txt (Some ms) hs)) = Some (join_str ", " ms))
  /\ (forall (txt : string) (methods : option (list string)) (hs : option Headers),
        truthy_list methods = false ->
        dict_get "Allow" (headers (NoMethod txt methods hs))
        = dict_get "Allow" (match hs with Some h => h | None => [] end))
  /\ NoMethod_default_methods = None
  /\ status_code NoMethod_default = 405%Z
  /\ headers NoMethod_default = [("Content-Type", "text/html")].
Proof.
  split; [|split; [|split; [|split; [|split]]]].
  - intros txt methods hs. split; [reflexivity|].
    unfold NoMethod, TextHttpError_init, HttpError_init; simpl.
    apply dict_get_set_same.
  - intros txt ms hs Ht. destruct ms as [|m ms]; [discriminate|].
    unfold NoMethod, TextHttpError_init, HttpError_init; simpl.
    rewrite dict_get_set_other by discriminate.
    apply dict_get_set_same.
  - intros txt methods hs Ht. unfold NoMethod, TextHttpError_init, HttpError_init.
    rewrite Ht. simpl. apply dict_get_set_other. discriminate.
  - reflexivity.
  - reflexivity.
  - reflexivity.
Qed.

Lemma no_method_headers_witness :
  dict_get "Allow" (headers (NoMethod "" (Some ["GET"; "HEAD"]) (Some [("Allow", "PUT")])))
  = Some "GET, HEAD"
  /\ dict_get "Allow" (headers (NoMethod "" None (Some [("Allow", "PUT")]))) = Some "PUT".
Proof.
  split.
  - exact (proj1 (proj2 no_method_headers) "" ["GET"; "HEAD"] (Some [("Allow", "PUT")]) eq_refl).
  - exact (proj1 (proj2 (proj2 no_method_headers)) "" None (Some [("Allow", "PUT")]) eq_refl).
Defined.

(** C5 (resource release): the processor breaks it.  [processor] reads
    [ctx.db] again in its [except] and [finally] clauses instead of
    keeping the session it acquired in a local, as its sibling
    [make_session] does.  A continuation that removes [ctx.db] leaves
    session 0 unclosed and makes the processor raise [AttributeError]
    although the continuation returned normally; one that rebinds
    [ctx.db] to another session 5 makes the processor close session 5,
    never session 0.  [make_session] closes the session it acquired in
    both cases. *)
Lemma processor_misses_rebound_session :
  processor gd_plain (del_db ;;; ret VNone) init_st
  = (Raise (AttributeError "db"), mkSt empty_ctx [EvAcquire 0] 1)
  /\ ~ In (EvClose 0) (log (snd (processor gd_plain (del_db ;;; ret VNone) init_st)))
  /\ processor gd_plain (set_db 5 ;;; ret VNone) init_st
     = (Ret VNone, mkSt (set_ctx_db empty_ctx (Some 5)) [EvAcquire 0; EvClose 5] 1)
  /\ ~ In (EvClose 0) (log (snd (processor gd_plain (set_db 5 ;;; ret VNone) init_st)))
  /\ make_session gd_plain (fun _ => del_db ;;; ret VNone) init_st
     = (Ret VNone, mkSt empty_ctx [EvAcquire 0; EvClose 0] 1)
  /\ make_session gd_plain (fun _ => set_db 5 ;;; ret VNone) init_st
     = (Ret VNone, mkSt (set_ctx_db empty_ctx (Some 5)) [EvAcquire 0; EvClose 0] 1).
Proof.
  split; [reflexivity|split; [|split; [reflexivity|split; [|split; reflexivity]]]].
  - simpl. intros [H|H]; [discriminate|exact H].
  - simpl. intros [H|[H|H]]; [discriminate|discriminate|exact H].
Qed.



(** C10 (failing session acquisition).  When [db_session_maker()]
    raises, the cleanup of [processor] (with [ctx.db] never assigned) and
    of [make_session] (whose [session] is still [None]) calls [rollback]
    and [close] on nothing: the caller gets [AttributeError] instead of
    the factory's exception, no session is closed and the continuation or
    [with] body never runs (the state is left as it was). *)
Theorem session_acquisition_failure :
  (forall (gd : GlobalData) (next : M Value) (st : St) (e : Exn),
     maker_error gd = Some e -> ctx_db (ctx st) = None ->
     processor gd next st = (Raise (AttributeError "db"), st))
  /\ (forall (A : Type) (gd : GlobalData) (body : Session -> M A) (st : St) (e : Exn),
        maker_error gd = Some e ->
        make_session gd body st = (Raise (AttributeError "close"), st)).
Proof.
  split.
  - intros gd next st e Hm Hdb.
    unfold processor, try_finally, try_except, m_case, bind, db_session_maker.
    rewrite Hm. unfold raise, get_db, get_ctx, bind. simpl. rewrite Hdb. simpl.
    rewrite Hdb. reflexivity.
  - intros A gd body st e Hm.
    unfold make_session, m_case, db_session_maker. rewrite Hm. reflexivity.
Qed.

Lemma session_acquisition_failure_witness :
  processor (mkGlobalData false (Some (UserError "connection refused")) None)
    (ret VNone) init_st
  = (Raise (AttributeError "db"), init_st)
  /\ make_session (mkGlobalData false (Some (UserError "connection refused")) None)
       (fun _ => ret VNone) init_st
     = (Raise (AttributeError "close"), init_st).
Proof.
  split.
  - exact (proj1 session_acquisition_failure
             (mkGlobalData false (Some (UserError "connection refused")) None)
             (ret VNone) init_st (UserError "connection refused") eq_refl eq_refl).
  - exact (proj2 session_acquisition_failure Value
             (mkGlobalData false (Some (UserError "connection refused")) None)
             (fun _ => ret VNone) init_st (UserError "connection refused") eq_refl).
Defined.

(** * Further properties of the code *)

(** The headers of a redirect: [Location] is the URL, [Content-Type] is
    [text/html], whatever the caller gave for them; every other caller
    header is kept. *)
Definition redirect_shape (code : Z) (url : string) (h : Headers) (e : HttpError) : Prop :=
  status_code e = code /\ text e = ""
  /\ dict_get "Location" (headers e) = Some url
  /\ dict_get "Content-Type" (headers e) = Some "text/html"
  /\ (forall k, k <> "Location" -> k <> "Content-Type" -> dict_get k (headers e) = dict_get k h).

Lemma Redirect_init_shape (code : Z) (url : string) (h : Headers) :
  exists e, Redirect_init code url (Some h) = Ret e /\ redirect_shape code url h e.
Proof.
  eexists; split; [reflexivity|].
  unfold redirect_shape; simpl. split; [reflexivity|split; [reflexivity|split; [|split]]].
  - apply dict_get_set_same.
  - rewrite dict_get_set_other by discriminate. apply dict_get_set_same.
  - intros k Hl Hc. rewrite dict_get_set_other by exact Hl.
    apply dict_get_set_other; exact Hc.
Qed.

(** [Found], [SeeOther] (with or without caller headers) and
    [TempRedirect] given a headers dict build a redirect with status 302,
    303 and 307, empty text, [Location] set to the URL and [Content-Type]
    forced to [text/html], overriding caller values, and every other
    caller header kept. *)
Theorem redirects_set_location :
  forall (url : string) (hs : option Headers) (h : Headers),
    (exists e, Found url hs = Ret e
               /\ redirect_shape 302 url (match hs with Some h => h | None => [] end) e)
    /\ (exists e, SeeOther url hs = Ret e
               /\ redirect_shape 303 url (match hs with Some h => h | None => [] end) e)
    /\ (exists e, TempRedirect url (Some h) = Ret e /\ redirect_shape 307 url h e).
Proof.
  intros url hs h. split; [|split]; apply Redirect_init_shape.
Qed.

(** The text errors ([BadRequest], [Unauthorized], [Forbidden],
    [NoMethod], [NotAcceptable], [Conflict], [Gone], [PreconditionFailed],
    [UnsupportedMediaType], [UnavailableForLegalReasons], [InternalError])
    carry their fixed status codes and the given text, and always have
    [Content-Type: text/html] (overriding the caller's).  All but
    [NoMethod] keep every other caller header.  [NoMethod] keeps every
    caller header other than [Content-Type] and [Allow]; its [Allow] is
    the [", "]-join of [methods] when [methods] is a non-empty list
    (overriding the caller's), and the caller's otherwise. *)
Theorem text_errors_force_html :
  forall (txt : string) (methods : option (list string)) (hs : option Headers),
    map status_code (text_errors txt methods hs)
    = [400; 401; 403; 405; 406; 409; 410; 412; 415; 451; 500]%Z
    /\ Forall (fun e =>
         text e = txt
         /\ dict_get "Content-Type" (headers e) = Some "text/html")
       (text_errors txt methods hs)
    /\ (forall e, In e (text_errors txt methods hs) -> status_code e <> 405%Z ->
          forall k, k <> "Content-Type" ->
            dict_get k (headers e) = dict_get k (match hs with Some h => h | None => [] end))
    /\ (forall k, k <> "Content-Type" -> k <> "Allow" ->
          dict_get k (headers (NoMethod txt methods hs))
          = dict_get k (match hs with Some h => h | None => [] end))
    /\ dict_get "Allow" (headers (NoMethod txt methods hs))
       = match methods with
         | Some ((_ :: _) as ms) => Some (join_str ", " ms)
         | _ => dict_get "Allow" (match hs with Some h => h | None => [] end)
         end.
Proof.
  intros txt methods hs.
  assert (Hgen : forall code hs',
            text (TextHttpError_init code txt hs') = txt
            /\ dict_get "Content-Type" (headers (TextHttpError_init code txt hs')) = Some "text/html"
            /\ forall k, k <> "Content-Type" ->
                 dict_get k (headers (TextHttpError_init code txt hs'))
                 = dict_get k (match hs' with Some h => h | None => [] end)).
  { intros code hs'. unfold TextHttpError_init, HttpError_init; simpl.
    split; [reflexivity|split].
    - apply dict_get_set_same.
    - intros k Hk. apply dict_get_set_other; exact Hk. }
  split; [reflexivity|split; [|split; [|split]]].
  - unfold text_errors. repeat constructor; apply Hgen.
  - intros e Hin Hs k Hk. unfold text_errors in Hin.
    destruct Hin as [<-|[<-|[<-|[<-|Hin]]]]; try exact (proj2 (proj2 (Hgen _ _)) k Hk).
    + exfalso; apply Hs; reflexivity.
    + repeat (destruct Hin as [<-|Hin]; [exact (proj2 (proj2 (Hgen _ _)) k Hk)|]).
      destruct Hin.
  - intros k Hk Ha. unfold NoMethod.
    rewrite (proj2 (proj2 (Hgen _ _)) k Hk).
    destruct (truthy_list methods); [|reflexivity].
    destruct methods as [ms|]; [|reflexivity].
    apply dict_get_set_other; exact Ha.
  - unfold NoMethod.
    rewrite (proj2 (proj2 (Hgen _ _)) "Allow" ltac:(discriminate)).
    destruct methods as [[|m ms]|]; cbn [truthy_list]; try reflexivity.
    apply dict_get_set_same.
Qed.

(** Every error the error classes can build has a status code listed in
    [status_table], so a reason phrase always exists for it. *)
Theorem error_status_in_table :
  forall (txt url : string) (hs : option Headers) (methods : option (list string)),
    Forall (fun e => status_reason (status_code e) status_table <> None)
      (built_errors txt url hs methods).
Proof.
  intros txt url hs methods.
  destruct hs as [h|]; unfold built_errors, text_errors; simpl;
    repeat constructor; simpl; discriminate.
Qed.

Lemma firstn_app_skipn {A} (n m : nat) (l : list A) :
  firstn n l ++ firstn m (skipn n l) = firstn (n + m) l.
Proof.
  revert l; induction n as [|n IH]; intros l; simpl; [reflexivity|].
  destruct l as [|x l]; simpl; [now destruct m|]. now rewrite IH.
Qed.

Lemma dumppage_some (pageNo pageSize : Z) (pm : PageModel) :
  dumppage pageNo pageSize = Some pm ->
  (pageSize >= 1)%Z /\ pm_pageNo pm = Z.max 1 pageNo /\ pm_pageSize pm = pageSize.
Proof.
  unfold dumppage. destruct (pageSize >=? 1)%Z eqn:Hs; [|discriminate].
  intros H; injection H as <-. simpl. apply Z.geb_le in Hs.
  split; [lia|split; [|reflexivity]].
  destruct (pageNo <? 1)%Z eqn:Hp; [apply Z.ltb_lt in Hp | apply Z.ltb_ge in Hp]; lia.
Qed.

(** [dumppage(pageNo, pageSize)] fails its assertion exactly when
    [pageSize < 1].  A page of a non-empty result holds the dumps of the
    rows from offset [(max(1, pageNo) - 1) * pageSize] on, at most
    [pageSize] of them, and [totalNum] is the number of rows: a page
    number below 1 reads the first page, never a negative offset. *)
Theorem dump_page_slice :
  (forall pageNo pageSize : Z,
     dumppage pageNo pageSize = None <-> (pageSize < 1)%Z)
  /\ (forall (Row : Type) (dump : Row -> Value) (pageNo pageSize : Z) (pm : PageModel)
        (rows : list Row),
        dumppage pageNo pageSize = Some pm -> rows <> [] ->
        pl_list (dump_page dump pm (Some rows))
        = map dump (firstn (Z.to_nat pageSize)
                      (skipn (Z.to_nat ((Z.max 1 pageNo - 1) * pageSize)) rows))
        /\ pl_totalNum (dump_page dump pm (Some rows)) = Some (Z.of_nat (length rows))
        /\ pl_pageNo (dump_page dump pm (Some rows)) = Z.max 1 pageNo
        /\ (length (pl_list (dump_page dump pm (Some rows))) <= Z.to_nat pageSize)%nat).
Proof.
  split.
  - intros pageNo pageSize. unfold dumppage.
    destruct (pageSize >=? 1)%Z eqn:Hs.
    + apply Z.geb_le in Hs. split; [discriminate | lia].
    + rewrite Z.geb_leb in Hs. apply Z.leb_gt in Hs. split; [intros _; lia | reflexivity].
  - intros Row dump pageNo pageSize pm rows Hpm Hne.
    destruct (dumppage_some _ _ _ Hpm) as (Hs & Hno & Hsz).
    unfold dump_page. destruct rows as [|r rows']; [contradiction|].
    simpl length. replace (Z.of_nat (S (length rows')) >? 0)%Z with true
      by (symmetry; apply Z.gtb_lt; lia).
    simpl. rewrite Hno, Hsz. unfold offset_limit.
    split; [reflexivity|split; [reflexivity|split; [reflexivity|]]].
    rewrite length_map. apply firstn_le_length.
Qed.

Lemma dumppage_slice_witness :
  dumppage 0%Z 2%Z = Some (mkPageModel 1 2)
  /\ pl_list (dump_page (fun z => VInt z) (mkPageModel 1 2) (Some [7; 8; 9]%Z))
     = map (fun z => VInt z) (firstn (Z.to_nat 2)
                   (skipn (Z.to_nat ((Z.max 1 0 - 1) * 2)%Z) [7; 8; 9]%Z))
     /\ pl_totalNum (dump_page (fun z => VInt z) (mkPageModel 1 2) (Some [7; 8; 9]%Z))
        = Some (Z.of_nat (length [7; 8; 9]%Z))
     /\ pl_pageNo (dump_page (fun z => VInt z) (mkPageModel 1 2) (Some [7; 8; 9]%Z))
        = Z.max 1 0%Z
     /\ (length (pl_list (dump_page (fun z => VInt z) (mkPageModel 1 2) (Some [7; 8; 9]%Z)))
         <= Z.to_nat 2%Z)%nat.
Proof.
  split; [reflexivity|].
  exact (proj2 dump_page_slice Z (fun z => VInt z) 0%Z 2%Z (mkPageModel 1 2) [7; 8; 9]%Z
           eq_refl ltac:(discriminate)).
Defined.

Lemma pages_upto_firstn {Row} (dump : Row -> Value) (size : Z) (rows : list Row) (k : nat) :
  (size >= 1)%Z -> rows <> [] ->
  pages_upto dump k size rows = map dump (firstn (k * Z.to_nat size) rows).
Proof.
  intros Hs Hne. induction k as [|k IH]; [reflexivity|].
  cbn [pages_upto]. rewrite IH.
  assert (Hp : (Z.of_nat (S k) <? 1)%Z = false) by (apply Z.ltb_ge; lia).
  assert (Hq : (size >=? 1)%Z = true) by (apply Z.geb_le; lia).
  unfold dumppage. rewrite Hp, Hq.
  unfold dump_page, offset_limit. cbn [pm_pageNo pm_pageSize].
  destruct rows as [|r rows']; [contradiction|].
  replace (Z.of_nat (length (r :: rows')) >? 0)%Z with true
    by (symmetry; apply Z.gtb_lt; simpl length; lia).
  cbn [pl_list]. rewrite <- map_app.
  replace (Z.to_nat ((Z.of_nat (S k) - 1) * size)) with (k * Z.to_nat size)%nat.
  - rewrite firstn_app_skipn. f_equal. f_equal. lia.
  - rewrite Z2Nat.inj_mul by lia. f_equal. lia.
Qed.

(** Paging composes: for a page size of at least 1, the pages [1 .. k]
    concatenated give exactly [dumpall] of the whole result once
    [k * pageSize] covers it; no row is lost or repeated across pages. *)
Theorem pages_cover_dumpall :
  forall (Row : Type) (dump : Row -> Value) (size : Z) (rows : list Row) (k : nat),
    (size >= 1)%Z -> (length rows <= k * Z.to_nat size)%nat ->
    pages_upto dump k size rows = dumpall dump (Some rows).
Proof.
  intros Row dump size rows k Hs Hlen. unfold dumpall.
  destruct rows as [|r rows'].
  - clear Hlen. induction k as [|k IH]; [reflexivity|].
    simpl. rewrite IH. unfold dumppage.
    destruct (Z.of_nat (S k) <? 1)%Z; destruct (size >=? 1)%Z; reflexivity.
  - rewrite pages_upto_firstn by (try discriminate; exact Hs).
    now rewrite firstn_all2.
Qed.

Lemma pages_cover_dumpall_witness :
  (2 >= 1)%Z /\ (length [1; 2; 3; 4; 5]%Z <= 3 * Z.to_nat 2)%nat
  /\ pages_upto (fun z => VInt z) 3 2 [1; 2; 3; 4; 5]%Z
     = dumpall (fun z => VInt z) (Some [1; 2; 3; 4; 5]%Z).
Proof.
  split; [lia|split; [simpl; lia|]].
  apply pages_cover_dumpall; [lia | simpl; lia].
Defined.

Lemma dict_get_cons {V} (k k0 : string) (v0 : V) (r : Dict V) :
  dict_get k ((k0, v0) :: r) = if String.eqb k k0 then Some v0 else dict_get k r.
Proof. reflexivity. Qed.

Lemma dict_has_cons {V} (k k0 : string) (v0 : V) (r : Dict V) :
  dict_has k ((k0, v0) :: r) = if String.eqb k k0 then true else dict_has k r.
Proof. unfold dict_has. simpl. now destruct (String.eqb k k0). Qed.

Lemma dict_get_notin {V} (k : string) (r : Dict V) :
  ~ In k (map fst r) -> dict_get k r = None.
Proof.
  induction r as [|[k' v'] r IH]; simpl; intros Hn; [reflexivity|].
  destruct (String.eqb k k') eqn:E.
  - apply String.eqb_eq in E; subst. exfalso; apply Hn; now left.
  - apply IH. intros H; apply Hn; now right.
Qed.

Lemma dict_has_notin {V} (k : string) (r : Dict V) :
  ~ In k (map fst r) -> dict_has k r = false.
Proof. intros Hn. unfold dict_has. now rewrite dict_get_notin. Qed.

Lemma writable_ro (o o' : PyObj) (k : string) :
  o_readonly o = o_readonly o' -> writable o k = writable o' k.
Proof. unfold writable. now intros ->. Qed.

Lemma setall_kwargs_get (kvs : Dict Value) : forall (o : PyObj),
  NoDup (map fst kvs) -> no_empty_key kvs -> no_hook o kvs ->
  snd (setall_kwargs o kvs) = None
  /\ o_readonly (fst (setall_kwargs o kvs)) = o_readonly o
  /\ o_setters (fst (setall_kwargs o kvs)) = o_setters o
  /\ forall k, dict_get k (o_dict (fst (setall_kwargs o kvs)))
               = if writable o k && dict_has k kvs then dict_get k kvs
                 else dict_get k (o_dict o).
Proof.
  induction kvs as [|[k0 v0] r IH]; intros o Hnd Hne Hnh.
  - simpl. split; [reflexivity|split; [reflexivity|split; [reflexivity|]]]. intros k.
    unfold dict_has; simpl. now rewrite andb_false_r.
  - simpl in Hnd. inversion Hnd as [|? ? Hnin Hnd']; subst.
    assert (Hne' : no_empty_key r) by (intros H; apply Hne; now right).
    assert (Hnh' : no_hook o r) by (intros k Hk; apply Hnh; now right).
    destruct k0 as [|c s0]; [exfalso; apply Hne; now left|].
    (* the cases where the entry is skipped *)
    assert (Hskip : writable o (String c s0) = false ->
              forall k, dict_get k (o_dict (fst (setall_kwargs o r)))
                = if writable o k && dict_has k ((String c s0, v0) :: r)
                  then dict_get k ((String c s0, v0) :: r) else dict_get k (o_dict o)).
    { intros Hw k. destruct (IH o Hnd' Hne' Hnh') as (_ & _ & _ & H3). rewrite H3.
      rewrite dict_has_cons, dict_get_cons.
      destruct (String.eqb k (String c s0)) eqn:Ek.
      - apply String.eqb_eq in Ek; subst k. rewrite Hw. reflexivity.
      - reflexivity. }
    cbn [setall_kwargs py_public].
    destruct (Ascii.eqb c "_"%char) eqn:Hc; cbn [negb].
    + destruct (IH o Hnd' Hne' Hnh') as (H1 & H2 & H2' & _).
      split; [exact H1|split; [exact H2|split; [exact H2'|]]]. apply Hskip.
      unfold writable. now rewrite Hc.
    + unfold py_setattr.
      destruct (existsb (String.eqb (String c s0)) (o_readonly o)) eqn:Hro.
      * destruct (IH o Hnd' Hne' Hnh') as (H1 & H2 & H2' & _).
        split; [exact H1|split; [exact H2|split; [exact H2'|]]]. apply Hskip.
        unfold writable. rewrite Hro, Hc. reflexivity.
      * rewrite (Hnh (String c s0) (or_introl eq_refl)).
        set (o1 := mkPyObj (o_readonly o) (o_setters o) (dict_set (String c s0) v0 (o_dict o))).
        destruct (IH o1 Hnd' Hne' Hnh') as (H1 & H2 & H2' & H3).
        split; [exact H1|split; [exact H2|split; [exact H2'|]]].
        intros k. rewrite H3. rewrite (writable_ro o1 o k eq_refl).
        rewrite dict_has_cons, dict_get_cons.
        destruct (String.eqb k (String c s0)) eqn:Ek.
        -- apply String.eqb_eq in Ek; subst k.
           rewrite (dict_has_notin _ _ Hnin), andb_false_r.
           assert (Hw : writable o (String c s0) = true).
           { unfold writable. rewrite Hro, Hc. reflexivity. }
           rewrite Hw. simpl. apply dict_get_set_same.
        -- destruct (writable o k && dict_has k r); [reflexivity|].
           simpl. apply dict_get_set_other. intros Heq; subst.
           now rewrite String.eqb_refl in Ek.
Qed.

(** [setall] with well-formed mappings (no empty key, distinct keys, no
    key ['self'], no key with an assignment hook) completes and, for every
    key it can write (not starting with ['_'], not a property without
    setter), leaves the value of [kwargs], else of [mapping[0]], else the
    old one; every other key, and every positional mapping after the
    first, is ignored. *)
Theorem setall_overrides :
  forall (o : PyObj) (mapping : list (Dict Value)) (kwargs : Dict Value),
    let m0 := match mapping with [] => [] | m :: _ => m end in
    NoDup (map fst m0) -> no_empty_key m0 -> dict_has "self" m0 = false -> no_hook o m0 ->
    NoDup (map fst kwargs) -> no_empty_key kwargs -> dict_has "self" kwargs = false ->
    no_hook o kwargs ->
    snd (db_model_setall o mapping kwargs) = None
    /\ o_readonly (fst (db_model_setall o mapping kwargs)) = o_readonly o
    /\ forall k, dict_get k (o_dict (fst (db_model_setall o mapping kwargs)))
                 = if writable o k then
                     match dict_get k kwargs with
                     | Some v => Some v
                     | None => match dict_get k m0 with
                               | Some v => Some v
                               | None => dict_get k (o_dict o)
                               end
                     end
                   else dict_get k (o_dict o).
Proof.
  intros o mapping kwargs m0 Hnd0 Hne0 Hs0 Hh0 Hnd Hne Hs Hh.
  unfold db_model_setall. rewrite Hs.
  destruct mapping as [|m rest].
  - destruct (setall_kwargs_get kwargs o Hnd Hne Hh) as (H1 & H2 & _ & H3).
    split; [exact H1|split; [exact H2|]]. intros k. rewrite H3.
    unfold dict_has. destruct (writable o k); simpl; [|reflexivity].
    now destruct (dict_get k kwargs).
  - simpl in m0. subst m0. rewrite Hs0.
    destruct (setall_kwargs_get m o Hnd0 Hne0 Hh0) as (G1 & G2 & G2' & G3).
    destruct (setall_kwargs o m) as [o1 e1] eqn:E1. simpl in G1, G2, G2', G3. subst e1.
    assert (Hh1 : no_hook o1 kwargs) by (unfold no_hook; rewrite G2'; exact Hh).
    destruct (setall_kwargs_get kwargs o1 Hnd Hne Hh1) as (H1 & H2 & _ & H3).
    split; [exact H1|split; [congruence|]]. intros k. rewrite H3, G3.
    rewrite (writable_ro o1 o k G2).
    unfold dict_has. destruct (writable o k); simpl; [|reflexivity].
    destruct (dict_get k kwargs); [reflexivity|].
    now destruct (dict_get k m).
Qed.

Lemma setall_overrides_witness :
  let o := mkPyObj ["full_name"] [] [("_sa_instance_state", VNone); ("name", VStr "a"); ("age", VInt 1)] in
  fst (db_model_setall o [[("name", VStr "b"); ("age", VInt 2)]]
         [("age", VInt 3); ("_x", VInt 0); ("full_name", VStr "z")])
  = mkPyObj ["full_name"] [] [("_sa_instance_state", VNone); ("name", VStr "b"); ("age", VInt 3)]
  /\ dict_get "age" (o_dict (fst (db_model_setall o [[("name", VStr "b"); ("age", VInt 2)]]
            [("age", VInt 3); ("_x", VInt 0); ("full_name", VStr "z")])))
     = (if writable o "age" then
          match dict_get "age" [("age", VInt 3); ("_x", VInt 0); ("full_name", VStr "z")] with
          | Some v => Some v
          | None => match dict_get "age" [("name", VStr "b"); ("age", VInt 2)] with
                    | Some v => Some v
                    | None => dict_get "age" (o_dict o)
                    end
          end
        else dict_get "age" (o_dict o)).
Proof.
  intros o.
  assert (P1 : NoDup (map fst [("name", VStr "b"); ("age", VInt 2)]))
    by (repeat constructor; simpl; intuition discriminate).
  assert (P2 : no_empty_key [("name", VStr "b"); ("age", VInt 2)])
    by (unfold no_empty_key; simpl; intuition discriminate).
  assert (P4 : NoDup (map fst [("age", VInt 3); ("_x", VInt 0); ("full_name", VStr "z")]))
    by (repeat constructor; simpl; intuition discriminate).
  assert (P5 : no_empty_key [("age", VInt 3); ("_x", VInt 0); ("full_name", VStr "z")])
    by (unfold no_empty_key; simpl; intuition discriminate).
  assert (Q : forall d : Dict Value, no_hook o d) by (intros d k _; reflexivity).
  split; [reflexivity|].
  exact (proj2 (proj2 (setall_overrides o [[("name", VStr "b"); ("age", VInt 2)]]
           [("age", VInt 3); ("_x", VInt 0); ("full_name", VStr "z")]
           P1 P2 eq_refl (Q _) P4 P5 eq_refl (Q _))) "age").
Defined.

Lemma setall_kwargs_app (o : PyObj) (pre rest : Dict Value) :
  setall_kwargs o (pre ++ rest)
  = match setall_kwargs o pre with
    | (o1, None) => setall_kwargs o1 rest
    | r => r
    end.
Proof.
  revert o. induction pre as [|[k v] pre IH]; intros o; [reflexivity|].
  cbn [app setall_kwargs]. destruct (py_public k) as [e|[|]]; [reflexivity| |apply IH].
  destruct (py_setattr o k v); [apply IH|apply IH|reflexivity].
Qed.

Lemma setall_kwargs_class (o : PyObj) (kvs : Dict Value) :
  o_readonly (fst (setall_kwargs o kvs)) = o_readonly o
  /\ o_setters (fst (setall_kwargs o kvs)) = o_setters o.
Proof.
  revert o. induction kvs as [|[k v] kvs IH]; intros o; [split; reflexivity|].
  cbn [setall_kwargs]. destruct (py_public k) as [e|[|]]; [split; reflexivity| |exact (IH _)].
  unfold py_setattr.
  destruct (existsb (String.eqb k) (o_readonly o)); [exact (IH _)|].
  destruct (dict_get k (o_setters o)) as [f|]; [|exact (IH _)].
  destruct (f v (o_dict o)) as [[] | d]; try (split; reflexivity); exact (IH _).
Qed.

Lemma py_public_b (k : string) : public_b k = true -> py_public k = inr true.
Proof. destruct k as [|c s]; [discriminate|]. cbn. now intros ->. Qed.

(** The [setall] loop lets out no [AttributeError]: its exceptions are
    the [IndexError] of an empty key and the other exceptions of an
    assignment hook.  Either leaves the instance with the entries before
    that key already written, and the rest is not applied; an
    [AttributeError] of a hook only skips its key.  A key ['self'] in
    [kwargs] or in [mapping[0]] raises [TypeError] before anything is
    written. *)
Theorem setall_errors :
  (forall (o : PyObj) (kvs : Dict Value) (e : ObjErr),
     snd (setall_kwargs o kvs) = Some e ->
     e = ObjIndexError \/ exists x, e = ObjRaised x /\ forall m, x <> AttributeError m)
  /\ (forall (o : PyObj) (pre post : Dict Value) (v : Value),
        snd (setall_kwargs o pre) = None ->
        setall_kwargs o (pre ++ ("", v) :: post) = (fst (setall_kwargs o pre), Some ObjIndexError))
  /\ (forall (o : PyObj) (pre post : Dict Value) (k : string) (v : Value) (f : Setter) (x : Exn),
        snd (setall_kwargs o pre) = None -> public_b k = true ->
        existsb (String.eqb k) (o_readonly o) = false ->
        dict_get k (o_setters o) = Some f ->
        f v (o_dict (fst (setall_kwargs o pre))) = inl x ->
        (forall m, x <> AttributeError m) ->
        setall_kwargs o (pre ++ (k, v) :: post)
        = (fst (setall_kwargs o pre), Some (ObjRaised x)))
  /\ (forall (o : PyObj) (pre post : Dict Value) (k : string) (v : Value) (f : Setter) (m : string),
        snd (setall_kwargs o pre) = None -> public_b k = true ->
        dict_get k (o_setters o) = Some f ->
        f v (o_dict (fst (setall_kwargs o pre))) = inl (AttributeError m) ->
        setall_kwargs o (pre ++ (k, v) :: post) = setall_kwargs (fst (setall_kwargs o pre)) post)
  /\ (forall (o : PyObj) (mapping : list (Dict Value)) (kwargs : Dict Value),
        dict_has "self" kwargs = true
        \/ (exists m rest, mapping = m :: rest /\ dict_has "self" m = true) ->
        db_model_setall o mapping kwargs = (o, Some ObjTypeError)).
Proof.
  split; [|split; [|split; [|split]]].
  - intros o kvs. revert o. induction kvs as [|[k v] kvs IH]; intros o e; [discriminate|].
    cbn [setall_kwargs]. destruct (py_public k) as [e'|[|]] eqn:Hp.
    + cbn [snd]. intros He. injection He as <-. left.
      destruct k; cbn in Hp; [|discriminate]. now injection Hp as <-.
    + unfold py_setattr.
      destruct (existsb (String.eqb k) (o_readonly o)); [apply IH|].
      destruct (dict_get k (o_setters o)) as [f|]; [|apply IH].
      destruct (f v (o_dict o)) as [x|d]; [|apply IH].
      destruct x; try (cbn [snd]; intros He; injection He as <-; right;
                       eexists; split; [reflexivity|intros m0; discriminate]).
      apply IH.
    + apply IH.
  - intros o pre post v Hpre. rewrite setall_kwargs_app.
    destruct (setall_kwargs o pre) as [o1 e1]. cbn [snd] in Hpre. subst e1. reflexivity.
  - intros o pre post k v f x Hpre Hk Hro Hf Hx Hna. rewrite setall_kwargs_app.
    destruct (setall_kwargs_class o pre) as [Cr Cs].
    destruct (setall_kwargs o pre) as [o1 e1]. cbn [snd fst] in *. subst e1.
    cbn [setall_kwargs]. rewrite (py_public_b k Hk). unfold py_setattr.
    rewrite Cr, Hro, Cs, Hf, Hx.
    destruct x; try reflexivity; exfalso; eapply Hna; reflexivity.
  - intros o pre post k v f m Hpre Hk Hf Hx. rewrite setall_kwargs_app.
    destruct (setall_kwargs_class o pre) as [Cr Cs].
    destruct (setall_kwargs o pre) as [o1 e1]. cbn [snd fst] in *. subst e1.
    cbn [setall_kwargs]. rewrite (py_public_b k Hk). unfold py_setattr.
    destruct (existsb (String.eqb k) (o_readonly o1)); [reflexivity|].
    rewrite Cs, Hf, Hx. reflexivity.
  - intros o mapping kwargs [H|(m & rest & -> & H)]; unfold db_model_setall.
    + now rewrite H.
    + rewrite H. now destruct (dict_has "self" kwargs).
Qed.

Lemma setall_errors_witness :
  let hook : Setter := fun v d =>
    match v with
    | VStr EmptyString => inl (UserError "email must not be empty")
    | _ => inr (dict_set "email" v d)
    end in
  let o := mkPyObj [] [("email", hook)] [("name", VStr "a"); ("email", VStr "a@b")] in
  snd (setall_kwargs o [("name", VStr "b")]) = None
  /\ setall_kwargs o ([("name", VStr "b")] ++ ("email", VStr "") :: [("age", VInt 2)])
     = (fst (setall_kwargs o [("name", VStr "b")]), Some (ObjRaised (UserError "email must not be empty")))
  /\ o_dict (fst (setall_kwargs o [("name", VStr "b")])) = [("name", VStr "b"); ("email", VStr "a@b")].
Proof.
  intros hook o.
  assert (H0 : snd (setall_kwargs o [("name", VStr "b")]) = None) by reflexivity.
  split; [exact H0|split; [|reflexivity]].
  exact (proj1 (proj2 (proj2 setall_errors)) o [("name", VStr "b")] [("age", VInt 2)]
           "email" (VStr "") hook (UserError "email must not be empty")
           H0 eq_refl eq_refl eq_refl eq_refl (fun m => ltac:(discriminate))).
Defined.

Lemma filter_public_ok (d : Dict Value) :
  no_empty_key d -> filter_public d = inr (filter (fun kv => public_b (fst kv)) d).
Proof.
  induction d as [|[k v] d IH]; intros Hne; [reflexivity|].
  assert (Hne' : no_empty_key d) by (intros H; apply Hne; now right).
  destruct k as [|c s]; [exfalso; apply Hne; now left|].
  cbn [filter_public py_public filter fst public_b]. rewrite (IH Hne').
  now destruct (negb (Ascii.eqb c "_"%char)).
Qed.

Lemma filter_public_app (a b : Dict Value) :
  no_empty_key a -> no_empty_key b ->
  filter_public (a ++ b) = inr (filter (fun kv => public_b (fst kv)) a
                                ++ filter (fun kv => public_b (fst kv)) b).
Proof.
  intros Ha Hb. rewrite filter_public_ok, filter_app; [reflexivity|].
  unfold no_empty_key in *. rewrite map_app, in_app_iff. tauto.
Qed.

Lemma NoDup_map_fst_filter (p : string * Value -> bool) (d : Dict Value) :
  NoDup (map fst d) -> NoDup (map fst (filter p d)).
Proof.
  induction d as [|[k v] d IH]; intros H; [constructor|].
  inversion H as [|? ? Hk Hd]; subst. cbn [filter].
  destruct (p (k, v)); [|auto]. cbn [map fst]. constructor; [|auto].
  intros Hin. apply Hk. apply in_map_iff in Hin as ([k' v'] & <- & Hin).
  apply filter_In in Hin as [Hin _]. now apply (in_map fst) in Hin.
Qed.

Lemma in_fst_filter (p : string * Value -> bool) (d : Dict Value) (k : string) :
  In k (map fst (filter p d)) -> In k (map fst d).
Proof.
  intros Hin. apply in_map_iff in Hin as ([k' v'] & <- & Hin).
  apply filter_In in Hin as [Hin _]. now apply (in_map fst) in Hin.
Qed.

Lemma dict_set_absent (k : string) (v : Value) (d : Dict Value) :
  dict_get k d = None -> dict_set k v d = d ++ [(k, v)].
Proof.
  induction d as [|[k' v'] d IH]; intros H; [reflexivity|].
  rewrite dict_get_cons in H. cbn [dict_set app].
  destruct (String.eqb k k') eqn:E; [discriminate|]. now rewrite (IH H).
Qed.

Lemma dict_has_in {V} (k : string) (r : Dict V) :
  dict_has k r = false -> ~ In k (map fst r).
Proof.
  unfold dict_has. induction r as [|[k' v'] r IH]; simpl; intros H Hin; [exact Hin|].
  destruct (String.eqb k k') eqn:E; [discriminate|].
  destruct Hin as [->|Hin]; [now rewrite String.eqb_refl in E|exact (IH H Hin)].
Qed.

Lemma dict_get_app {V} (k : string) (a b : Dict V) :
  dict_get k (a ++ b) = match dict_get k a with Some v => Some v | None => dict_get k b end.
Proof.
  induction a as [|[k' v'] a IH]; [reflexivity|].
  cbn [app dict_get]. now destruct (String.eqb k k').
Qed.

Lemma setall_kwargs_append (kvs : Dict Value) : forall (o : PyObj),
  NoDup (map fst kvs) ->
  (forall k, In k (map fst kvs) ->
     public_b k = true /\ existsb (String.eqb k) (o_readonly o) = false
     /\ dict_get k (o_setters o) = None /\ dict_get k (o_dict o) = None) ->
  setall_kwargs o kvs = (mkPyObj (o_readonly o) (o_setters o) (o_dict o ++ kvs), None).
Proof.
  induction kvs as [|[k v] kvs IH]; intros o Hnd H.
  - destruct o; simpl. now rewrite app_nil_r.
  - inversion Hnd as [|? ? Hk Hnd']; subst.
    destruct (H k (or_introl eq_refl)) as (Hp & Hro & Hh & Hg).
    destruct k as [|c s]; [discriminate|].
    cbn [setall_kwargs py_public]. cbn [public_b] in Hp. rewrite Hp.
    unfold py_setattr. rewrite Hro, Hh, (dict_set_absent _ _ _ Hg).
    rewrite IH; cbn [o_readonly o_setters o_dict].
    + now rewrite <- app_assoc.
    + exact Hnd'.
    + intros k' Hin. destruct (H k' (or_intror Hin)) as (Hp' & Hro' & Hh' & Hg').
      split; [exact Hp'|split; [exact Hro'|split; [exact Hh'|]]].
      rewrite dict_get_app, Hg'. cbn [dict_get].
      destruct (String.eqb k' (String c s)) eqn:E; [|reflexivity].
      apply String.eqb_eq in E; subst. contradiction.
Qed.

(** [copy()] without arguments of an instance whose public attributes are
    all plainly writable (distinct, non-empty, none named ['self'], no
    property without setter, no assignment hook) and a class whose fresh
    instances only carry private attributes returns an instance of the
    same class with the same [storage()]: its [__dict__] is the fresh one
    followed by the public entries of the original, in their order. *)
Theorem copy_storage_roundtrip (o : PyObj) (fresh : Dict Value) :
  NoDup (map fst (o_dict o)) -> no_empty_key (o_dict o) ->
  dict_has "self" (o_dict o) = false ->
  (forall k, In k (map fst (o_dict o)) -> public_b k = true ->
     existsb (String.eqb k) (o_readonly o) = false) ->
  (forall k, In k (map fst (o_dict o)) -> public_b k = true ->
     dict_get k (o_setters o) = None) ->
  (forall k, In k (map fst fresh) -> k <> "" /\ public_b k = false) ->
  exists c, db_model_copy o fresh [] [] = inr c
    /\ o_readonly c = o_readonly o
    /\ o_setters c = o_setters o
    /\ o_dict c = fresh ++ filter (fun kv => public_b (fst kv)) (o_dict o)
    /\ db_model_storage c = db_model_storage o.
Proof.
  intros Hnd Hne Hs Hro Hho Hfr.
  set (st := filter (fun kv => public_b (fst kv)) (o_dict o)).
  assert (Hst_in : forall k, In k (map fst st) -> In k (map fst (o_dict o)) /\ public_b k = true).
  { intros k Hin. split; [exact (in_fst_filter _ _ _ Hin)|].
    apply in_map_iff in Hin as ([k' v'] & <- & Hin).
    apply filter_In in Hin as [_ Hp]. exact Hp. }
  assert (Hst_self : dict_has "self" st = false).
  { apply dict_has_notin. intros Hin. apply (dict_has_in _ _ Hs).
    exact (proj1 (Hst_in _ Hin)). }
  assert (Hset : setall_kwargs (mkPyObj (o_readonly o) (o_setters o) fresh) st
                 = (mkPyObj (o_readonly o) (o_setters o) (fresh ++ st), None)).
  { apply (setall_kwargs_append st (mkPyObj (o_readonly o) (o_setters o) fresh)).
    - apply NoDup_map_fst_filter; exact Hnd.
    - intros k Hin. destruct (Hst_in k Hin) as [Hin' Hp].
      split; [exact Hp|split; [exact (Hro k Hin' Hp)|split; [exact (Hho k Hin' Hp)|]]].
      cbn [o_dict]. apply dict_get_notin. intros Hf.
      destruct (Hfr k Hf) as [_ Hp']. congruence. }
  exists (mkPyObj (o_readonly o) (o_setters o) (fresh ++ st)).
  unfold db_model_copy, db_model_storage at 1. rewrite (filter_public_ok _ Hne). fold st.
  unfold db_model_setall at 1. rewrite Hst_self, Hset.
  cbn [db_model_setall dict_has dict_get setall_kwargs].
  split; [reflexivity|split; [reflexivity|split; [reflexivity|split; [reflexivity|]]]].
  unfold db_model_storage. cbn [o_dict].
  assert (Hnef : no_empty_key fresh).
  { intros Hf. exact (proj1 (Hfr "" Hf) eq_refl). }
  assert (Hnes : no_empty_key st).
  { intros Hf. apply Hne. exact (proj1 (Hst_in "" Hf)). }
  rewrite (filter_public_app _ _ Hnef Hnes), (filter_public_ok _ Hne).
  f_equal.
  assert (Hf0 : filter (fun kv => public_b (fst kv)) fresh = []).
  { clear - Hfr. induction fresh as [|[k v] fresh IH]; [reflexivity|].
    cbn [filter fst]. destruct (Hfr k (or_introl eq_refl)) as [_ ->].
    apply IH. intros k' Hin. exact (Hfr k' (or_intror Hin)). }
  rewrite Hf0. cbn [app]. subst st.
  generalize (o_dict o). clear. intros d.
  induction d as [|[k v] d IH]; [reflexivity|].
  cbn [filter fst]. destruct (public_b k) eqn:Hp; [|exact IH].
  cbn [filter fst]. now rewrite Hp, IH.
Qed.

Lemma copy_storage_roundtrip_witness :
  let o := mkPyObj ["full_name"] [("_password", fun v d => inr (dict_set "_password" v d))]
             [("_sa_instance_state", VNone); ("name", VStr "a"); ("age", VInt 1)] in
  exists c,
    db_model_copy o [("_sa_instance_state", VNone)] [] [] = inr c
    /\ o_readonly c = o_readonly o
    /\ o_setters c = o_setters o
    /\ o_dict c = [("_sa_instance_state", VNone)]
                  ++ filter (fun kv => public_b (fst kv)) (o_dict o)
    /\ db_model_storage c = db_model_storage o.
Proof.
  intros o.
  apply (copy_storage_roundtrip o [("_sa_instance_state", VNone)]); cbn [o o_dict o_readonly].
  - repeat constructor; simpl; intuition discriminate.
  - unfold no_empty_key; simpl; intuition discriminate.
  - reflexivity.
  - intros k Hin _. simpl in Hin.
    destruct Hin as [<-|[<-|[<-|[]]]]; reflexivity.
  - intros k Hin Hp. simpl in Hin.
    destruct Hin as [<-|[<-|[<-|[]]]]; [discriminate Hp|reflexivity|reflexivity].
  - intros k Hin. simpl in Hin. destruct Hin as [<-|[]].
    split; [discriminate|reflexivity].
Defined.

Lemma create_each_classes (ns : list string) :
  create_each (map MClass ns) = (ns, None).
Proof. induction ns as [|n ns IH]; [reflexivity|]. cbn. now rewrite IH. Qed.

Lemma create_all_one_seq (l : list ModelArg) :
  create_all_one (MSeq l) = create_all l.
Proof. destruct l as [|b [|c l]]; reflexivity. Qed.

(** [create_all] called with model classes, directly or as one list or
    tuple (nested any number of times), calls [metadata.create_all] of
    each class once, in order, and raises nothing. *)
Theorem create_all_classes (ns : list string) (d : nat) :
  create_all (Nat.iter d (fun a => [MSeq a]) (map MClass ns)) = (ns, None).
Proof.
  induction d as [|d IH]; cbn [Nat.iter].
  - destruct ns as [|n [|m ns]]; [reflexivity|reflexivity|].
    apply create_each_classes.
  - change (create_all_one (MSeq (Nat.iter d (fun a => [MSeq a]) (map MClass ns))) = (ns, None)).
    rewrite create_all_one_seq. exact IH.
Qed.

(** A list or tuple among several arguments of [create_all] is not
    unpacked: [metadata] is looked up on it and raises [AttributeError],
    after the classes before it have been created; the arguments after it
    are not reached. *)
Theorem create_all_nested_list_fails (ns : list string) (l rest : list ModelArg) :
  (2 <= length ns + S (length rest))%nat ->
  create_all (map MClass ns ++ MSeq l :: rest) = (ns, Some (AttributeError "metadata")).
Proof.
  intros Hlen.
  assert (He : create_each (map MClass ns ++ MSeq l :: rest)
               = (ns, Some (AttributeError "metadata"))).
  { clear Hlen. induction ns as [|n ns IH]; [reflexivity|]. cbn [map app create_each].
    now rewrite IH. }
  destruct ns as [|n ns].
  - destruct rest as [|r rest]; [cbn in Hlen; lia|]. exact He.
  - cbn [map app] in *. unfold create_all.
    destruct (map MClass ns ++ MSeq l :: rest) as [|x xs] eqn:E.
    + exfalso. exact (app_cons_not_nil _ _ _ (eq_sym E)).
    + exact He.
Qed.

Lemma create_all_nested_list_fails_witness :
  (2 <= length ["User"] + S (length [MClass "Order"]))%nat
  /\ create_all (map MClass ["User"] ++ MSeq [MClass "Item"] :: [MClass "Order"])
     = (["User"], Some (AttributeError "metadata")).
Proof.
  assert (H : (2 <= length ["User"] + S (length [MClass "Order"]))%nat) by (cbn; lia).
  split; [exact H|exact (create_all_nested_list_fails ["User"] [MClass "Item"] [MClass "Order"] H)].
Defined.

Lemma quote_app (a b : string) : quote (a ++ b) = (quote a ++ quote b)%string.
Proof.
  induction a as [|c a IH]; [reflexivity|]. cbn [append quote].
  destruct (quote_safe c); cbn [append]; now rewrite IH.
Qed.

Lemma unquote_escape (c : ascii) (rest : string) :
  unquote_to_bytes
    (String "%"%char (String (hex_digit (nat_of_ascii c / 16)%nat)
                       (String (hex_digit (nat_of_ascii c mod 16)%nat) rest)))
  = String c (unquote_to_bytes rest).
Proof. destruct c as [[] [] [] [] [] [] [] []]; reflexivity. Qed.

Lemma unquote_safe (c : ascii) (rest : string) :
  quote_safe c = true -> unquote_to_bytes (String c rest) = String c (unquote_to_bytes rest).
Proof.
  intros H. destruct c as [[] [] [] [] [] [] [] []]; try discriminate H; reflexivity.
Qed.

Lemma quote_safe_char_ok (c : ascii) (r : string) :
  quote_safe c = true ->
  forallb (fun d => negb (Ascii.eqb d ":"%char) && negb (Ascii.eqb d "@"%char))
    (list_ascii_of_string r) = true ->
  forallb (fun d => negb (Ascii.eqb d ":"%char) && negb (Ascii.eqb d "@"%char))
    (list_ascii_of_string (String c r)) = true.
Proof.
  intros H Hr. destruct c as [[] [] [] [] [] [] [] []]; try discriminate H; exact Hr.
Qed.

Lemma quote_escape_ok (c : ascii) (r : string) :
  forallb (fun d => negb (Ascii.eqb d ":"%char) && negb (Ascii.eqb d "@"%char))
    (list_ascii_of_string r) = true ->
  forallb (fun d => negb (Ascii.eqb d ":"%char) && negb (Ascii.eqb d "@"%char))
    (list_ascii_of_string
       (String "%"%char (String (hex_digit (nat_of_ascii c / 16)%nat)
                          (String (hex_digit (nat_of_ascii c mod 16)%nat) r)))) = true.
Proof. intros Hr. destruct c as [[] [] [] [] [] [] [] []]; exact Hr. Qed.

(** [urllib.parse.quote] as [init] calls it: it works byte by byte
    (it distributes over concatenation), keeps ['/'], never produces
    [':'] or ['@'], and [unquote_to_bytes] recovers the input from its
    output. *)
Theorem quote_properties :
  (forall a b, quote (a ++ b) = (quote a ++ quote b)%string)
  /\ quote "/" = "/"
  /\ (forall s, forallb (fun d => negb (Ascii.eqb d ":"%char) && negb (Ascii.eqb d "@"%char))
                  (list_ascii_of_string (quote s)) = true)
  /\ (forall s, unquote_to_bytes (quote s) = s).
Proof.
  split; [exact quote_app|split; [reflexivity|split]].
  - induction s as [|c s IH]; [reflexivity|]. cbn [quote].
    destruct (quote_safe c) eqn:Hs.
    + exact (quote_safe_char_ok c _ Hs IH).
    + exact (quote_escape_ok c _ IH).
  - induction s as [|c s IH]; [reflexivity|]. cbn [quote].
    destruct (quote_safe c) eqn:Hs.
    + now rewrite unquote_safe, IH.
    + now rewrite unquote_escape, IH.
Qed.

Lemma split_at_prefix (c : ascii) (s rest : string) :
  forallb (fun d => negb (Ascii.eqb d c)) (list_ascii_of_string s) = true ->
  split_at c (s ++ String c rest) = (s, Some rest).
Proof.
  induction s as [|d s IH]; intros H.
  - cbn. now rewrite Ascii.eqb_refl.
  - cbn [list_ascii_of_string forallb] in H. apply andb_true_iff in H as [Hd H].
    cbn [append split_at]. apply negb_true_iff in Hd. rewrite Hd, (IH H). reflexivity.
Qed.

Lemma forallb_weaken (p q : ascii -> bool) (l : list ascii) :
  (forall x, p x = true -> q x = true) -> forallb p l = true -> forallb q l = true.
Proof.
  intros Hpq. induction l as [|x l IH]; [reflexivity|]. cbn [forallb].
  intros H. apply andb_true_iff in H as [Hx H]. now rewrite (Hpq x Hx), (IH H).
Qed.

(** The URI [init] builds when [dburi] is falsy ([None] or [''])
    carries [quote(username)] up to its first [':'] and
    [quote(password)] from there up to the next ['@'], whatever
    characters the two contain, and both decode back to the originals; a
    missing [username] or [password] makes [quote] raise [TypeError]. *)
Theorem init_uri_userinfo (protocol host entity : option string) (port : option Z)
    (dburi : option string) (u p : string) :
  dburi = None \/ dburi = Some "" ->
  (exists tail,
     init_uri protocol (Some u) (Some p) host port entity dburi
       = inr (fmt_str protocol ++ "://" ++ quote u ++ ":" ++ quote p ++ "@" ++ tail)%string
     /\ split_at ":"%char (quote u ++ ":" ++ quote p ++ "@" ++ tail)%string
        = (quote u, Some (quote p ++ "@" ++ tail)%string)
     /\ split_at "@"%char (quote p ++ "@" ++ tail)%string = (quote p, Some tail)
     /\ unquote_to_bytes (quote u) = u
     /\ unquote_to_bytes (quote p) = p)
  /\ init_uri protocol None (Some p) host port entity dburi
     = inl (TypeError "quote_from_bytes() expected bytes")
  /\ init_uri protocol (Some u) None host port entity dburi
     = inl (TypeError "quote_from_bytes() expected bytes").
Proof.
  intros Hd.
  assert (Hi : forall us ps, init_uri protocol us ps host port entity dburi
                 = match us, ps with
                   | Some u, Some p =>
                       inr (fmt_str protocol ++ "://" ++ quote u ++ ":" ++ quote p ++ "@"
                            ++ fmt_str host ++ ":" ++ fmt_port port ++ "/" ++ fmt_str entity)%string
                   | _, _ => inl (TypeError "quote_from_bytes() expected bytes")
                   end).
  { intros us ps. unfold init_uri. now destruct Hd as [->| ->]. }
  destruct quote_properties as (_ & _ & Hq & Hr).
  split; [|split; [apply Hi|apply Hi]].
  exists (fmt_str host ++ ":" ++ fmt_port port ++ "/" ++ fmt_str entity)%string.
  split; [apply Hi|split; [|split; [|split; apply Hr]]].
  - apply split_at_prefix. refine (forallb_weaken _ _ _ _ (Hq u)).
    intros x Hx. now apply andb_true_iff in Hx as [Hx _].
  - apply split_at_prefix. refine (forallb_weaken _ _ _ _ (Hq p)).
    intros x Hx. now apply andb_true_iff in Hx as [_ Hx].
Qed.

Lemma init_uri_userinfo_witness :
  (@None string = None \/ @None string = Some "")
  /\ init_uri (Some "mysql+mysqlconnector") None (Some "p:w@d") (Some "h") (Some 3306%Z)
       (Some "db") None = inl (TypeError "quote_from_bytes() expected bytes").
Proof.
  assert (H : @None string = None \/ @None string = Some "") by (left; reflexivity).
  split; [exact H|].
  exact (proj1 (proj2 (init_uri_userinfo (Some "mysql+mysqlconnector") (Some "h") (Some "db")
                         (Some 3306%Z) None "u@x" "p:w@d" H))).
Defined.


